(** * Study-plan progress tracker: outline extraction and progress store

    A shallow embedding of [src/app.py].  The first half follows
    [PDFTopicExtractor]: the two pattern tables, the line-by-line fold that
    builds the topic dictionary, and [_clean_and_validate_topics] with its two
    fallback passes.  The second half follows [StudyTracker]: the registry of
    check-box variables, [refresh_ui], [load_progress], [save_progress] and
    [check_progress].

    Python strings are sequences of Unicode code points, so a string is a
    list of [Z]; the three bullet glyphs of the source lie outside ASCII.
    A [dict] keeps insertion order, and the order of subjects is observable,
    so a dictionary is an association list with unique keys. *)

From Stdlib Require Import ZArith List Bool Lia String Ascii.
Import ListNotations.
Open Scope Z_scope.

(** ** Unicode character classes

    The ranges below are those of the Unicode Character Database 14.0, the
    version shipped with CPython 3.11. *)
Module Unicode.

Definition in_ranges (t : list (Z * Z)) (c : Z) : bool :=
  existsb (fun r => (fst r <=? c) && (c <=? snd r)) t.

(** Code points for which [str.isspace] holds; [str.strip] and the [\s] class of [re] use the same set. *)
Definition whitespace_ranges : list (Z * Z) :=
  [ (9, 13); (28, 32); (133, 133); (160, 160); (5760, 5760); (8192, 8202); (8232, 8233); (8239,
    8239); (8287, 8287); (12288, 12288) ].

(** Decimal digits (general category Nd): the [\d] class of [re] on [str] patterns. *)
Definition decimal_ranges : list (Z * Z) :=
  [ (48, 57); (1632, 1641); (1776, 1785); (1984, 1993); (2406, 2415); (2534, 2543); (2662,
    2671); (2790, 2799); (2918, 2927); (3046, 3055); (3174, 3183); (3302, 3311); (3430, 3439);
    (3558, 3567); (3664, 3673); (3792, 3801); (3872, 3881); (4160, 4169); (4240, 4249); (6112,
    6121); (6160, 6169); (6470, 6479); (6608, 6617); (6784, 6793); (6800, 6809); (6992, 7001);
    (7088, 7097); (7232, 7241); (7248, 7257); (42528, 42537); (43216, 43225); (43264, 43273);
    (43472, 43481); (43504, 43513); (43600, 43609); (44016, 44025); (65296, 65305); (66720,
    66729); (68912, 68921); (69734, 69743); (69872, 69881); (69942, 69951); (70096, 70105);
    (70384, 70393); (70736, 70745); (70864, 70873); (71248, 71257); (71360, 71369); (71472,
    71481); (71904, 71913); (72016, 72025); (72784, 72793); (73040, 73049); (73120, 73129);
    (92768, 92777); (92864, 92873); (93008, 93017); (120782, 120831); (123200, 123209); (123632,
    123641); (125264, 125273); (130032, 130041) ].

(** Code points with the Uppercase property. *)
Definition uppercase_ranges : list (Z * Z) :=
  [ (65, 90); (192, 214); (216, 222); (256, 256); (258, 258); (260, 260); (262, 262); (264,
    264); (266, 266); (268, 268); (270, 270); (272, 272); (274, 274); (276, 276); (278, 278);
    (280, 280); (282, 282); (284, 284); (286, 286); (288, 288); (290, 290); (292, 292); (294,
    294); (296, 296); (298, 298); (300, 300); (302, 302); (304, 304); (306, 306); (308, 308);
    (310, 310); (313, 313); (315, 315); (317, 317); (319, 319); (321, 321); (323, 323); (325,
    325); (327, 327); (330, 330); (332, 332); (334, 334); (336, 336); (338, 338); (340, 340);
    (342, 342); (344, 344); (346, 346); (348, 348); (350, 350); (352, 352); (354, 354); (356,
    356); (358, 358); (360, 360); (362, 362); (364, 364); (366, 366); (368, 368); (370, 370);
    (372, 372); (374, 374); (376, 377); (379, 379); (381, 381); (385, 386); (388, 388); (390,
    391); (393, 395); (398, 401); (403, 404); (406, 408); (412, 413); (415, 416); (418, 418);
    (420, 420); (422, 423); (425, 425); (428, 428); (430, 431); (433, 435); (437, 437); (439,
    440); (444, 444); (452, 452); (455, 455); (458, 458); (461, 461); (463, 463); (465, 465);
    (467, 467); (469, 469); (471, 471); (473, 473); (475, 475); (478, 478); (480, 480); (482,
    482); (484, 484); (486, 486); (488, 488); (490, 490); (492, 492); (494, 494); (497, 497);
    (500, 500); (502, 504); (506, 506); (508, 508); (510, 510); (512, 512); (514, 514); (516,
    516); (518, 518); (520, 520); (522, 522); (524, 524); (526, 526); (528, 528); (530, 530);
    (532, 532); (534, 534); (536, 536); (538, 538); (540, 540); (542, 542); (544, 544); (546,
    546); (548, 548); (550, 550); (552, 552); (554, 554); (556, 556); (558, 558); (560, 560);
    (562, 562); (570, 571); (573, 574); (577, 577); (579, 582); (584, 584); (586, 586); (588,
    588); (590, 590); (880, 880); (882, 882); (886, 886); (895, 895); (902, 902); (904, 906);
    (908, 908); (910, 911); (913, 929); (931, 939); (975, 975); (978, 980); (984, 984); (986,
    986); (988, 988); (990, 990); (992, 992); (994, 994); (996, 996); (998, 998); (1000, 1000);
    (1002, 1002); (1004, 1004); (1006, 1006); (1012, 1012); (1015, 1015); (1017, 1018); (1021,
    1071); (1120, 1120); (1122, 1122); (1124, 1124); (1126, 1126); (1128, 1128); (1130, 1130);
    (1132, 1132); (1134, 1134); (1136, 1136); (1138, 1138); (1140, 1140); (1142, 1142); (1144,
    1144); (1146, 1146); (1148, 1148); (1150, 1150); (1152, 1152); (1162, 1162); (1164, 1164);
    (1166, 1166); (1168, 1168); (1170, 1170); (1172, 1172); (1174, 1174); (1176, 1176); (1178,
    1178); (1180, 1180); (1182, 1182); (1184, 1184); (1186, 1186); (1188, 1188); (1190, 1190);
    (1192, 1192); (1194, 1194); (1196, 1196); (1198, 1198); (1200, 1200); (1202, 1202); (1204,
    1204); (1206, 1206); (1208, 1208); (1210, 1210); (1212, 1212); (1214, 1214); (1216, 1217);
    (1219, 1219); (1221, 1221); (1223, 1223); (1225, 1225); (1227, 1227); (1229, 1229); (1232,
    1232); (1234, 1234); (1236, 1236); (1238, 1238); (1240, 1240); (1242, 1242); (1244, 1244);
    (1246, 1246); (1248, 1248); (1250, 1250); (1252, 1252); (1254, 1254); (1256, 1256); (1258,
    1258); (1260, 1260); (1262, 1262); (1264, 1264); (1266, 1266); (1268, 1268); (1270, 1270);
    (1272, 1272); (1274, 1274); (1276, 1276); (1278, 1278); (1280, 1280); (1282, 1282); (1284,
    1284); (1286, 1286); (1288, 1288); (1290, 1290); (1292, 1292); (1294, 1294); (1296, 1296);
    (1298, 1298); (1300, 1300); (1302, 1302); (1304, 1304); (1306, 1306); (1308, 1308); (1310,
    1310); (1312, 1312); (1314, 1314); (1316, 1316); (1318, 1318); (1320, 1320); (1322, 1322);
    (1324, 1324); (1326, 1326); (1329, 1366); (4256, 4293); (4295, 4295); (4301, 4301); (5024,
    5109); (7312, 7354); (7357, 7359); (7680, 7680); (7682, 7682); (7684, 7684); (7686, 7686);
    (7688, 7688); (7690, 7690); (7692, 7692); (7694, 7694); (7696, 7696); (7698, 7698); (7700,
    7700); (7702, 7702); (7704, 7704); (7706, 7706); (7708, 7708); (7710, 7710); (7712, 7712);
    (7714, 7714); (7716, 7716); (7718, 7718); (7720, 7720); (7722, 7722); (7724, 7724); (7726,
    7726); (7728, 7728); (7730, 7730); (7732, 7732); (7734, 7734); (7736, 7736); (7738, 7738);
    (7740, 7740); (7742, 7742); (7744, 7744); (7746, 7746); (7748, 7748); (7750, 7750); (7752,
    7752); (7754, 7754); (7756, 7756); (7758, 7758); (7760, 7760); (7762, 7762); (7764, 7764);
    (7766, 7766); (7768, 7768); (7770, 7770); (7772, 7772); (7774, 7774); (7776, 7776); (7778,
    7778); (7780, 7780); (7782, 7782); (7784, 7784); (7786, 7786); (7788, 7788); (7790, 7790);
    (7792, 7792); (7794, 7794); (7796, 7796); (7798, 7798); (7800, 7800); (7802, 7802); (7804,
    7804); (7806, 7806); (7808, 7808); (7810, 7810); (7812, 7812); (7814, 7814); (7816, 7816);
    (7818, 7818); (7820, 7820); (7822, 7822); (7824, 7824); (7826, 7826); (7828, 7828); (7838,
    7838); (7840, 7840); (7842, 7842); (7844, 7844); (7846, 7846); (7848, 7848); (7850, 7850);
    (7852, 7852); (7854, 7854); (7856, 7856); (7858, 7858); (7860, 7860); (7862, 7862); (7864,
    7864); (7866, 7866); (7868, 7868); (7870, 7870); (7872, 7872); (7874, 7874); (7876, 7876);
    (7878, 7878); (7880, 7880); (7882, 7882); (7884, 7884); (7886, 7886); (7888, 7888); (7890,
    7890); (7892, 7892); (7894, 7894); (7896, 7896); (7898, 7898); (7900, 7900); (7902, 7902);
    (7904, 7904); (7906, 7906); (7908, 7908); (7910, 7910); (7912, 7912); (7914, 7914); (7916,
    7916); (7918, 7918); (7920, 7920); (7922, 7922); (7924, 7924); (7926, 7926); (7928, 7928);
    (7930, 7930); (7932, 7932); (7934, 7934); (7944, 7951); (7960, 7965); (7976, 7983); (7992,
    7999); (8008, 8013); (8025, 8025); (8027, 8027); (8029, 8029); (8031, 8031); (8040, 8047);
    (8120, 8123); (8136, 8139); (8152, 8155); (8168, 8172); (8184, 8187); (8450, 8450); (8455,
    8455); (8459, 8461); (8464, 8466); (8469, 8469); (8473, 8477); (8484, 8484); (8486, 8486);
    (8488, 8488); (8490, 8493); (8496, 8499); (8510, 8511); (8517, 8517); (8544, 8559); (8579,
    8579); (9398, 9423); (11264, 11311); (11360, 11360); (11362, 11364); (11367, 11367); (11369,
    11369); (11371, 11371); (11373, 11376); (11378, 11378); (11381, 11381); (11390, 11392);
    (11394, 11394); (11396, 11396); (11398, 11398); (11400, 11400); (11402, 11402); (11404,
    11404); (11406, 11406); (11408, 11408); (11410, 11410); (11412, 11412); (11414, 11414);
    (11416, 11416); (11418, 11418); (11420, 11420); (11422, 11422); (11424, 11424); (11426,
    11426); (11428, 11428); (11430, 11430); (11432, 11432); (11434, 11434); (11436, 11436);
    (11438, 11438); (11440, 11440); (11442, 11442); (11444, 11444); (11446, 11446); (11448,
    11448); (11450, 11450); (11452, 11452); (11454, 11454); (11456, 11456); (11458, 11458);
    (11460, 11460); (11462, 11462); (11464, 11464); (11466, 11466); (11468, 11468); (11470,
    11470); (11472, 11472); (11474, 11474); (11476, 11476); (11478, 11478); (11480, 11480);
    (11482, 11482); (11484, 11484); (11486, 11486); (11488, 11488); (11490, 11490); (11499,
    11499); (11501, 11501); (11506, 11506); (42560, 42560); (42562, 42562); (42564, 42564);
    (42566, 42566); (42568, 42568); (42570, 42570); (42572, 42572); (42574, 42574); (42576,
    42576); (42578, 42578); (42580, 42580); (42582, 42582); (42584, 42584); (42586, 42586);
    (42588, 42588); (42590, 42590); (42592, 42592); (42594, 42594); (42596, 42596); (42598,
    42598); (42600, 42600); (42602, 42602); (42604, 42604); (42624, 42624); (42626, 42626);
    (42628, 42628); (42630, 42630); (42632, 42632); (42634, 42634); (42636, 42636); (42638,
    42638); (42640, 42640); (42642, 42642); (42644, 42644); (42646, 42646); (42648, 42648);
    (42650, 42650); (42786, 42786); (42788, 42788); (42790, 42790); (42792, 42792); (42794,
    42794); (42796, 42796); (42798, 42798); (42802, 42802); (42804, 42804); (42806, 42806);
    (42808, 42808); (42810, 42810); (42812, 42812); (42814, 42814); (42816, 42816); (42818,
    42818); (42820, 42820); (42822, 42822); (42824, 42824); (42826, 42826); (42828, 42828);
    (42830, 42830); (42832, 42832); (42834, 42834); (42836, 42836); (42838, 42838); (42840,
    42840); (42842, 42842); (42844, 42844); (42846, 42846); (42848, 42848); (42850, 42850);
    (42852, 42852); (42854, 42854); (42856, 42856); (42858, 42858); (42860, 42860); (42862,
    42862); (42873, 42873); (42875, 42875); (42877, 42878); (42880, 42880); (42882, 42882);
    (42884, 42884); (42886, 42886); (42891, 42891); (42893, 42893); (42896, 42896); (42898,
    42898); (42902, 42902); (42904, 42904); (42906, 42906); (42908, 42908); (42910, 42910);
    (42912, 42912); (42914, 42914); (42916, 42916); (42918, 42918); (42920, 42920); (42922,
    42926); (42928, 42932); (42934, 42934); (42936, 42936); (42938, 42938); (42940, 42940);
    (42942, 42942); (42944, 42944); (42946, 42946); (42948, 42951); (42953, 42953); (42960,
    42960); (42966, 42966); (42968, 42968); (42997, 42997); (65313, 65338); (66560, 66599);
    (66736, 66771); (66928, 66938); (66940, 66954); (66956, 66962); (66964, 66965); (68736,
    68786); (71840, 71871); (93760, 93791); (119808, 119833); (119860, 119885); (119912,
    119937); (119964, 119964); (119966, 119967); (119970, 119970); (119973, 119974); (119977,
    119980); (119982, 119989); (120016, 120041); (120068, 120069); (120071, 120074); (120077,
    120084); (120086, 120092); (120120, 120121); (120123, 120126); (120128, 120132); (120134,
    120134); (120138, 120144); (120172, 120197); (120224, 120249); (120276, 120301); (120328,
    120353); (120380, 120405); (120432, 120457); (120488, 120512); (120546, 120570); (120604,
    120628); (120662, 120686); (120720, 120744); (120778, 120778); (125184, 125217); (127280,
    127305); (127312, 127337); (127344, 127369) ].

(** Code points with the Lowercase property. *)
Definition lowercase_ranges : list (Z * Z) :=
  [ (97, 122); (170, 170); (181, 181); (186, 186); (223, 246); (248, 255); (257, 257); (259,
    259); (261, 261); (263, 263); (265, 265); (267, 267); (269, 269); (271, 271); (273, 273);
    (275, 275); (277, 277); (279, 279); (281, 281); (283, 283); (285, 285); (287, 287); (289,
    289); (291, 291); (293, 293); (295, 295); (297, 297); (299, 299); (301, 301); (303, 303);
    (305, 305); (307, 307); (309, 309); (311, 312); (314, 314); (316, 316); (318, 318); (320,
    320); (322, 322); (324, 324); (326, 326); (328, 329); (331, 331); (333, 333); (335, 335);
    (337, 337); (339, 339); (341, 341); (343, 343); (345, 345); (347, 347); (349, 349); (351,
    351); (353, 353); (355, 355); (357, 357); (359, 359); (361, 361); (363, 363); (365, 365);
    (367, 367); (369, 369); (371, 371); (373, 373); (375, 375); (378, 378); (380, 380); (382,
    384); (387, 387); (389, 389); (392, 392); (396, 397); (402, 402); (405, 405); (409, 411);
    (414, 414); (417, 417); (419, 419); (421, 421); (424, 424); (426, 427); (429, 429); (432,
    432); (436, 436); (438, 438); (441, 442); (445, 447); (454, 454); (457, 457); (460, 460);
    (462, 462); (464, 464); (466, 466); (468, 468); (470, 470); (472, 472); (474, 474); (476,
    477); (479, 479); (481, 481); (483, 483); (485, 485); (487, 487); (489, 489); (491, 491);
    (493, 493); (495, 496); (499, 499); (501, 501); (505, 505); (507, 507); (509, 509); (511,
    511); (513, 513); (515, 515); (517, 517); (519, 519); (521, 521); (523, 523); (525, 525);
    (527, 527); (529, 529); (531, 531); (533, 533); (535, 535); (537, 537); (539, 539); (541,
    541); (543, 543); (545, 545); (547, 547); (549, 549); (551, 551); (553, 553); (555, 555);
    (557, 557); (559, 559); (561, 561); (563, 569); (572, 572); (575, 576); (578, 578); (583,
    583); (585, 585); (587, 587); (589, 589); (591, 659); (661, 696); (704, 705); (736, 740);
    (837, 837); (881, 881); (883, 883); (887, 887); (890, 893); (912, 912); (940, 974); (976,
    977); (981, 983); (985, 985); (987, 987); (989, 989); (991, 991); (993, 993); (995, 995);
    (997, 997); (999, 999); (1001, 1001); (1003, 1003); (1005, 1005); (1007, 1011); (1013,
    1013); (1016, 1016); (1019, 1020); (1072, 1119); (1121, 1121); (1123, 1123); (1125, 1125);
    (1127, 1127); (1129, 1129); (1131, 1131); (1133, 1133); (1135, 1135); (1137, 1137); (1139,
    1139); (1141, 1141); (1143, 1143); (1145, 1145); (1147, 1147); (1149, 1149); (1151, 1151);
    (1153, 1153); (1163, 1163); (1165, 1165); (1167, 1167); (1169, 1169); (1171, 1171); (1173,
    1173); (1175, 1175); (1177, 1177); (1179, 1179); (1181, 1181); (1183, 1183); (1185, 1185);
    (1187, 1187); (1189, 1189); (1191, 1191); (1193, 1193); (1195, 1195); (1197, 1197); (1199,
    1199); (1201, 1201); (1203, 1203); (1205, 1205); (1207, 1207); (1209, 1209); (1211, 1211);
    (1213, 1213); (1215, 1215); (1218, 1218); (1220, 1220); (1222, 1222); (1224, 1224); (1226,
    1226); (1228, 1228); (1230, 1231); (1233, 1233); (1235, 1235); (1237, 1237); (1239, 1239);
    (1241, 1241); (1243, 1243); (1245, 1245); (1247, 1247); (1249, 1249); (1251, 1251); (1253,
    1253); (1255, 1255); (1257, 1257); (1259, 1259); (1261, 1261); (1263, 1263); (1265, 1265);
    (1267, 1267); (1269, 1269); (1271, 1271); (1273, 1273); (1275, 1275); (1277, 1277); (1279,
    1279); (1281, 1281); (1283, 1283); (1285, 1285); (1287, 1287); (1289, 1289); (1291, 1291);
    (1293, 1293); (1295, 1295); (1297, 1297); (1299, 1299); (1301, 1301); (1303, 1303); (1305,
    1305); (1307, 1307); (1309, 1309); (1311, 1311); (1313, 1313); (1315, 1315); (1317, 1317);
    (1319, 1319); (1321, 1321); (1323, 1323); (1325, 1325); (1327, 1327); (1376, 1416); (4304,
    4346); (4349, 4351); (5112, 5117); (7296, 7304); (7424, 7615); (7681, 7681); (7683, 7683);
    (7685, 7685); (7687, 7687); (7689, 7689); (7691, 7691); (7693, 7693); (7695, 7695); (7697,
    7697); (7699, 7699); (7701, 7701); (7703, 7703); (7705, 7705); (7707, 7707); (7709, 7709);
    (7711, 7711); (7713, 7713); (7715, 7715); (7717, 7717); (7719, 7719); (7721, 7721); (7723,
    7723); (7725, 7725); (7727, 7727); (7729, 7729); (7731, 7731); (7733, 7733); (7735, 7735);
    (7737, 7737); (7739, 7739); (7741, 7741); (7743, 7743); (7745, 7745); (7747, 7747); (7749,
    7749); (7751, 7751); (7753, 7753); (7755, 7755); (7757, 7757); (7759, 7759); (7761, 7761);
    (7763, 7763); (7765, 7765); (7767, 7767); (7769, 7769); (7771, 7771); (7773, 7773); (7775,
    7775); (7777, 7777); (7779, 7779); (7781, 7781); (7783, 7783); (7785, 7785); (7787, 7787);
    (7789, 7789); (7791, 7791); (7793, 7793); (7795, 7795); (7797, 7797); (7799, 7799); (7801,
    7801); (7803, 7803); (7805, 7805); (7807, 7807); (7809, 7809); (7811, 7811); (7813, 7813);
    (7815, 7815); (7817, 7817); (7819, 7819); (7821, 7821); (7823, 7823); (7825, 7825); (7827,
    7827); (7829, 7837); (7839, 7839); (7841, 7841); (7843, 7843); (7845, 7845); (7847, 7847);
    (7849, 7849); (7851, 7851); (7853, 7853); (7855, 7855); (7857, 7857); (7859, 7859); (7861,
    7861); (7863, 7863); (7865, 7865); (7867, 7867); (7869, 7869); (7871, 7871); (7873, 7873);
    (7875, 7875); (7877, 7877); (7879, 7879); (7881, 7881); (7883, 7883); (7885, 7885); (7887,
    7887); (7889, 7889); (7891, 7891); (7893, 7893); (7895, 7895); (7897, 7897); (7899, 7899);
    (7901, 7901); (7903, 7903); (7905, 7905); (7907, 7907); (7909, 7909); (7911, 7911); (7913,
    7913); (7915, 7915); (7917, 7917); (7919, 7919); (7921, 7921); (7923, 7923); (7925, 7925);
    (7927, 7927); (7929, 7929); (7931, 7931); (7933, 7933); (7935, 7943); (7952, 7957); (7968,
    7975); (7984, 7991); (8000, 8005); (8016, 8023); (8032, 8039); (8048, 8061); (8064, 8071);
    (8080, 8087); (8096, 8103); (8112, 8116); (8118, 8119); (8126, 8126); (8130, 8132); (8134,
    8135); (8144, 8147); (8150, 8151); (8160, 8167); (8178, 8180); (8182, 8183); (8305, 8305);
    (8319, 8319); (8336, 8348); (8458, 8458); (8462, 8463); (8467, 8467); (8495, 8495); (8500,
    8500); (8505, 8505); (8508, 8509); (8518, 8521); (8526, 8526); (8560, 8575); (8580, 8580);
    (9424, 9449); (11312, 11359); (11361, 11361); (11365, 11366); (11368, 11368); (11370,
    11370); (11372, 11372); (11377, 11377); (11379, 11380); (11382, 11389); (11393, 11393);
    (11395, 11395); (11397, 11397); (11399, 11399); (11401, 11401); (11403, 11403); (11405,
    11405); (11407, 11407); (11409, 11409); (11411, 11411); (11413, 11413); (11415, 11415);
    (11417, 11417); (11419, 11419); (11421, 11421); (11423, 11423); (11425, 11425); (11427,
    11427); (11429, 11429); (11431, 11431); (11433, 11433); (11435, 11435); (11437, 11437);
    (11439, 11439); (11441, 11441); (11443, 11443); (11445, 11445); (11447, 11447); (11449,
    11449); (11451, 11451); (11453, 11453); (11455, 11455); (11457, 11457); (11459, 11459);
    (11461, 11461); (11463, 11463); (11465, 11465); (11467, 11467); (11469, 11469); (11471,
    11471); (11473, 11473); (11475, 11475); (11477, 11477); (11479, 11479); (11481, 11481);
    (11483, 11483); (11485, 11485); (11487, 11487); (11489, 11489); (11491, 11492); (11500,
    11500); (11502, 11502); (11507, 11507); (11520, 11557); (11559, 11559); (11565, 11565);
    (42561, 42561); (42563, 42563); (42565, 42565); (42567, 42567); (42569, 42569); (42571,
    42571); (42573, 42573); (42575, 42575); (42577, 42577); (42579, 42579); (42581, 42581);
    (42583, 42583); (42585, 42585); (42587, 42587); (42589, 42589); (42591, 42591); (42593,
    42593); (42595, 42595); (42597, 42597); (42599, 42599); (42601, 42601); (42603, 42603);
    (42605, 42605); (42625, 42625); (42627, 42627); (42629, 42629); (42631, 42631); (42633,
    42633); (42635, 42635); (42637, 42637); (42639, 42639); (42641, 42641); (42643, 42643);
    (42645, 42645); (42647, 42647); (42649, 42649); (42651, 42653); (42787, 42787); (42789,
    42789); (42791, 42791); (42793, 42793); (42795, 42795); (42797, 42797); (42799, 42801);
    (42803, 42803); (42805, 42805); (42807, 42807); (42809, 42809); (42811, 42811); (42813,
    42813); (42815, 42815); (42817, 42817); (42819, 42819); (42821, 42821); (42823, 42823);
    (42825, 42825); (42827, 42827); (42829, 42829); (42831, 42831); (42833, 42833); (42835,
    42835); (42837, 42837); (42839, 42839); (42841, 42841); (42843, 42843); (42845, 42845);
    (42847, 42847); (42849, 42849); (42851, 42851); (42853, 42853); (42855, 42855); (42857,
    42857); (42859, 42859); (42861, 42861); (42863, 42872); (42874, 42874); (42876, 42876);
    (42879, 42879); (42881, 42881); (42883, 42883); (42885, 42885); (42887, 42887); (42892,
    42892); (42894, 42894); (42897, 42897); (42899, 42901); (42903, 42903); (42905, 42905);
    (42907, 42907); (42909, 42909); (42911, 42911); (42913, 42913); (42915, 42915); (42917,
    42917); (42919, 42919); (42921, 42921); (42927, 42927); (42933, 42933); (42935, 42935);
    (42937, 42937); (42939, 42939); (42941, 42941); (42943, 42943); (42945, 42945); (42947,
    42947); (42952, 42952); (42954, 42954); (42961, 42961); (42963, 42963); (42965, 42965);
    (42967, 42967); (42969, 42969); (42998, 42998); (43000, 43002); (43824, 43866); (43868,
    43880); (43888, 43967); (64256, 64262); (64275, 64279); (65345, 65370); (66600, 66639);
    (66776, 66811); (66967, 66977); (66979, 66993); (66995, 67001); (67003, 67004); (67456,
    67456); (67459, 67461); (67463, 67504); (67506, 67514); (68800, 68850); (71872, 71903);
    (93792, 93823); (119834, 119859); (119886, 119892); (119894, 119911); (119938, 119963);
    (119990, 119993); (119995, 119995); (119997, 120003); (120005, 120015); (120042, 120067);
    (120094, 120119); (120146, 120171); (120198, 120223); (120250, 120275); (120302, 120327);
    (120354, 120379); (120406, 120431); (120458, 120485); (120514, 120538); (120540, 120545);
    (120572, 120596); (120598, 120603); (120630, 120654); (120656, 120661); (120688, 120712);
    (120714, 120719); (120746, 120770); (120772, 120777); (120779, 120779); (122624, 122633);
    (122635, 122654); (125218, 125251) ].

(** Titlecase letters (general category Lt). *)
Definition titlecase_ranges : list (Z * Z) :=
  [ (453, 453); (456, 456); (459, 459); (498, 498); (8072, 8079); (8088, 8095); (8104, 8111);
    (8124, 8124); (8140, 8140); (8188, 8188) ].

Definition is_space (c : Z) : bool := in_ranges whitespace_ranges c.
Definition is_decimal (c : Z) : bool := in_ranges decimal_ranges c.
Definition is_upper (c : Z) : bool := in_ranges uppercase_ranges c.
Definition is_lower (c : Z) : bool := in_ranges lowercase_ranges c.
Definition is_title (c : Z) : bool := in_ranges titlecase_ranges c.

End Unicode.

(** ** Python strings *)
Module Str.

Definition pystr := list Z.

Definition ord (a : ascii) : Z := Z.of_N (N_of_ascii a).

(** A string literal of the source, for literals written in ASCII. *)
Definition lit (s : string) : pystr := List.map ord (list_ascii_of_string s).

Fixpoint eqb (s t : pystr) : bool :=
  match s, t with
  | [], [] => true
  | c :: s', d :: t' => (c =? d) && eqb s' t'
  | _, _ => false
  end.

(** Truth value of a string: [bool(s)]. *)
Definition truthy (s : pystr) : bool :=
  match s with [] => false | _ :: _ => true end.

Fixpoint lstrip (s : pystr) : pystr :=
  match s with
  | c :: s' => if Unicode.is_space c then lstrip s' else s
  | [] => []
  end.

Definition rstrip (s : pystr) : pystr := rev (lstrip (rev s)).

(** [s.strip()] *)
Definition strip (s : pystr) : pystr := rstrip (lstrip s).

(** [s.split(sep)] for a one-character separator: never an empty list. *)
Fixpoint split (sep : Z) (s : pystr) : list pystr :=
  match s with
  | [] => [[]]
  | c :: s' =>
      if c =? sep then [] :: split sep s'
      else match split sep s' with
           | l :: ls => (c :: l) :: ls
           | [] => [[c]]
           end
  end.

Fixpoint startswith (p s : pystr) : bool :=
  match p, s with
  | [], _ => true
  | c :: p', d :: s' => (c =? d) && startswith p' s'
  | _ :: _, [] => false
  end.

(** [p in s] *)
Fixpoint contains (p s : pystr) : bool :=
  startswith p s || match s with [] => false | _ :: s' => contains p s' end.

(** [s.endswith(p)] *)
Definition endswith (p s : pystr) : bool := startswith (rev p) (rev s).

(** [s.isupper()]: no lower-case or title-case character, and at least one
    upper-case one. *)
Fixpoint isupper_from (cased : bool) (s : pystr) : bool :=
  match s with
  | [] => cased
  | c :: s' =>
      if Unicode.is_lower c || Unicode.is_title c then false
      else isupper_from (cased || Unicode.is_upper c) s'
  end.

Definition isupper (s : pystr) : bool := isupper_from false s.

End Str.

Import Str.

(** ** Regular expressions

    The fragment of Python's [re] that the source uses.  Every quantifier of
    the source is applied to a single character or character set, so
    repetition is over a set; the only look-behind is one character wide.
    Matching is by backtracking, greedy quantifiers first, as in [re]: the
    matcher takes the text before the position (reversed), the text from the
    position on, and a continuation for what follows. *)
Module Re.

Inductive atom : Type :=
  | Chr (c : Z)              (* a literal character *)
  | Range (lo hi : Z)        (* [lo-hi] *)
  | Space                    (* \s *)
  | Digit.                   (* \d *)

Inductive cset : Type :=
  | OneOf (l : list atom)    (* [...] *)
  | NoneOf (l : list atom).  (* [^...] *)

Inductive regex : Type :=
  | Eps
  | Bol                                            (* ^ *)
  | Set1 (c : cset)                                (* one character *)
  | Rep (c : cset) (lo : nat) (hi : option nat)    (* c{lo,hi}, greedy *)
  | Cat (r1 r2 : regex)
  | Group (r : regex)                              (* ( ... ) *)
  | LookBehind (c : cset)                          (* (?<=c) *)
  | LookAhead (r : regex).                         (* (?=r) *)

Definition atom_mem (a : atom) (x : Z) : bool :=
  match a with
  | Chr c => x =? c
  | Range lo hi => (lo <=? x) && (x <=? hi)
  | Space => Unicode.is_space x
  | Digit => Unicode.is_decimal x
  end.

Definition cset_mem (c : cset) (x : Z) : bool :=
  match c with
  | OneOf l => existsb (fun a => atom_mem a x) l
  | NoneOf l => negb (existsb (fun a => atom_mem a x) l)
  end.

(** A position in the subject string. *)
Definition pos : Type := (pystr * pystr)%type.
Definition cont : Type := pystr -> pystr -> option pos.

Definition may_repeat (hi : option nat) : bool :=
  match hi with Some O => false | _ => true end.

Definition one_less (hi : option nat) : option nat :=
  match hi with Some n => Some (Nat.pred n) | None => None end.

(** Greedy repetition: take as many characters as allowed, then give them
    back one at a time until the continuation succeeds. *)
Definition stop_here (lo : nat) (before rest : pystr) (k : cont) : option pos :=
  match lo with O => k before rest | S _ => None end.

Fixpoint rep (p : Z -> bool) (lo : nat) (hi : option nat)
         (before rest : pystr) (k : cont) : option pos :=
  match rest with
  | x :: rest' =>
      if p x && may_repeat hi then
        match rep p (Nat.pred lo) (one_less hi) (x :: before) rest' k with
        | Some e => Some e
        | None => stop_here lo before rest k
        end
      else stop_here lo before rest k
  | [] => stop_here lo before rest k
  end.

Fixpoint run (r : regex) (before rest : pystr) (k : cont) : option pos :=
  match r with
  | Eps => k before rest
  | Bol => match before with [] => k before rest | _ :: _ => None end
  | Set1 c =>
      match rest with
      | x :: rest' => if cset_mem c x then k (x :: before) rest' else None
      | [] => None
      end
  | Rep c lo hi => rep (cset_mem c) lo hi before rest k
  | Cat r1 r2 => run r1 before rest (fun b s => run r2 b s k)
  | Group r' => run r' before rest k
  | LookBehind c =>
      match before with
      | x :: _ => if cset_mem c x then k before rest else None
      | [] => None
      end
  | LookAhead r' =>
      match run r' before rest (fun b s => Some (b, s)) with
      | Some _ => k before rest
      | None => None
      end
  end.

Definition accept : cont := fun b s => Some (b, s).

(** The match of [r] that starts at the given position, if any. *)
Definition match_at (r : regex) (before rest : pystr) : option pos :=
  run r before rest accept.

(** [re.match(r, s)]: a match at the start of [s] only. *)
Definition re_match (r : regex) (s : pystr) : bool :=
  match match_at r [] s with Some _ => true | None => false end.

(** [re.search(r, s)]: a match starting anywhere in [s]. *)
Fixpoint search_from (r : regex) (before rest : pystr) : bool :=
  match match_at r before rest with
  | Some _ => true
  | None =>
      match rest with
      | x :: rest' => search_from r (x :: before) rest'
      | [] => false
      end
  end.

Definition re_search (r : regex) (s : pystr) : bool := search_from r [] s.

(** [re.sub(r, '', s)]: every non-overlapping match, leftmost first, is
    deleted.  A match that consumed nothing deletes nothing, and the scan
    moves on by one character. *)
Fixpoint delete_matches (fuel : nat) (r : regex) (before rest : pystr) : pystr :=
  match fuel with
  | O => rest
  | S fuel' =>
      let skip :=
        match rest with
        | x :: rest' => x :: delete_matches fuel' r (x :: before) rest'
        | [] => []
        end in
      match match_at r before rest with
      | Some (b', rest') =>
          if (List.length rest' <? List.length rest)%nat
          then delete_matches fuel' r b' rest'
          else skip
      | None => skip
      end
  end.

Definition re_sub_empty (r : regex) (s : pystr) : pystr :=
  delete_matches (S (List.length s)) r [] s.

(** Concatenation of a list of pieces, and a literal word. *)
Definition cat (rs : list regex) : regex := fold_right Cat Eps rs.
Definition chr (a : ascii) : regex := Set1 (OneOf [Chr (ord a)]).
Definition word (s : string) : regex := cat (List.map chr (list_ascii_of_string s)).

Definition star (c : cset) : regex := Rep c 0 None.
Definition plus (c : cset) : regex := Rep c 1 None.
Definition opt (c : cset) : regex := Rep c 0 (Some 1%nat).

End Re.

Import Re.

(** ** The pattern tables of [PDFTopicExtractor] *)

Definition az (a b : ascii) : atom := Range (ord a) (ord b).
Definition ch (a : ascii) : atom := Chr (ord a).

(** The bullet glyphs of the source: [•] U+2022, [●] U+25CF, [※] U+203B. *)
Definition BULLET : Z := 8226.
Definition BLACK_CIRCLE : Z := 9679.
Definition REFERENCE_MARK : Z := 8251.

Definition roman : cset := OneOf [ch "I"; ch "V"; ch "X"].
Definition digit : cset := OneOf [Digit].
Definition space : cset := OneOf [Space].
Definition upper_az : cset := OneOf [az "A" "Z"].

(** [\[\d+L\]] *)
Definition lecture_hours : regex :=
  cat [chr "["; plus digit; chr "L"; chr "]"].

Definition SUBJECT_PATTERNS : list regex :=
  [ (* ^Module\s+[IVX]+:?\s*\[\d+L\] *)
    cat [Bol; word "Module"; plus space; plus roman; opt (OneOf [ch ":"]);
         star space; lecture_hours];
    (* ^Module\s+\d+:?\s*\[\d+L\] *)
    cat [Bol; word "Module"; plus space; plus digit; opt (OneOf [ch ":"]);
         star space; lecture_hours];
    (* ^[A-Z][A-Za-z\s\-]+: *)
    cat [Bol; Set1 upper_az;
         plus (OneOf [az "A" "Z"; az "a" "z"; Space; ch "-"]); chr ":"];
    (* ^[IVX]+\. *)
    cat [Bol; plus roman; chr "."];
    (* ^\d+\.\s*[A-Z] *)
    cat [Bol; plus digit; chr "."; star space; Set1 upper_az] ].

Definition bullets : list atom :=
  [ch "-"; Chr BULLET; Chr BLACK_CIRCLE; Chr REFERENCE_MARK; ch "*"].

(** [(?<=:)([^,.]+)(?=[,.])], the last of the subtopic patterns. *)
Definition COLON_SEGMENT : regex :=
  cat [LookBehind (OneOf [ch ":"]); Group (plus (NoneOf [ch ","; ch "."]));
       LookAhead (Set1 (OneOf [ch ","; ch "."]))].

Definition SUBTOPIC_PATTERNS : list regex :=
  [ (* ^\s*[-•●※*]\s *)
    cat [Bol; star space; Set1 (OneOf bullets); Set1 space];
    (* ^\s*[a-z]\)\s *)
    cat [Bol; star space; Set1 (OneOf [az "a" "z"]); chr ")"; Set1 space];
    (* ^\s*\d+\.\d*\s *)
    cat [Bol; star space; plus digit; chr "."; star digit; Set1 space];
    (* ^\s{2,}[A-Z][^:]+: *)
    cat [Bol; Rep space 2 None; Set1 upper_az; plus (NoneOf [ch ":"]); chr ":"];
    (* ^\s{2,}[A-Z] *)
    cat [Bol; Rep space 2 None; Set1 upper_az];
    (* (?<=:)([^,.]+)(?=[,.]) *)
    COLON_SEGMENT ].

(** The pattern of the stripping step: [^\s*[-•●※*\d.]\s*] *)
Definition MARKER : cset := OneOf (bullets ++ [Digit; ch "."]).
Definition STRIP_PATTERN : regex :=
  cat [Bol; star space; Set1 MARKER; star space].

(** The numbered-heading pattern of the second pass: [^\d+\.?\s+[A-Z]] *)
Definition NUMBERED_HEADING : regex :=
  cat [Bol; plus digit; opt (OneOf [ch "."]); plus space; Set1 upper_az].

(** ** Dictionaries

    A Python [dict]: unique keys in insertion order.  Assigning to a key
    that is present replaces its value and leaves its place unchanged. *)
Module Dict.
Section Dict.
Context {V : Type}.

Definition dict : Type := list (pystr * V).

(** [d[k] = v] *)
Fixpoint set (k : pystr) (v : V) (d : dict) : dict :=
  match d with
  | [] => [(k, v)]
  | (k', v') :: d' =>
      if Str.eqb k' k then (k', v) :: d' else (k', v') :: set k v d'
  end.

(** [d[k]] *)
Fixpoint get (k : pystr) (d : dict) : option V :=
  match d with
  | [] => None
  | (k', v') :: d' => if Str.eqb k' k then Some v' else get k d'
  end.

(** [k in d] *)
Definition mem (k : pystr) (d : dict) : bool :=
  match get k d with Some _ => true | None => false end.

(** The value at [k] replaced by [f] of it: an in-place change of [d[k]].
    A dictionary without [k] is left as it is (Python raises [KeyError];
    no caller below reaches that case). *)
Fixpoint update (k : pystr) (f : V -> V) (d : dict) : dict :=
  match d with
  | [] => []
  | (k', v') :: d' =>
      if Str.eqb k' k then (k', f v') :: d' else (k', v') :: update k f d'
  end.

Definition keys (d : dict) : list pystr := List.map fst d.

End Dict.
Arguments dict : clear implicits.
End Dict.

Definition TopicMap : Type := Dict.dict (list pystr).

(** ** What the program logs or shows

    An event is a dialog the program shows (every [messagebox] call, with the
    log line that goes with it), or one of the two log lines that mark the
    start of the second pass (line 116) and a completed load (line 263).  The
    other log lines are not modelled: the path and the pages of the file
    (lines 56, 60, 66 and 69, one line per page), the echo of each subject and
    subtopic (lines 83 and 92), and those of [load_pdf] and [refresh_ui]
    (lines 209, 212 and 224).  An equality of event lists below is an equality
    of the modelled messages only, and says nothing of the lines left out. *)
Inductive event : Type :=
  | DebugAlternativeParsing   (* "No topics found with primary patterns, ..." *)
  | WarningNoTopics           (* logger.warning and messagebox.showwarning *)
  | ErrorReadPdf              (* "Failed to read PDF: ..." *)
  | ErrorOpenFile             (* "Failed to open file: ..." *)
  | ErrorNoTopicsExtracted    (* "No topics could be extracted from the PDF" *)
  | DebugProgressLoaded
  | ErrorLoadProgress         (* "Failed to load progress: ..." *)
  | InfoProgressSaved         (* "Progress saved successfully!" *)
  | ErrorSaveProgress         (* "Failed to save progress: ..." *)
  | InfoNoTopicsAvailable     (* "No topics available. Please load a PDF first." *)
  | InfoProgressReport (completed incomplete : list pystr).

(** ** [PDFTopicExtractor] *)

Definition two_spaces : pystr := lit "  ".
Definition colon : pystr := lit ":".
Definition newline : Z := 10.

Definition is_subject (clean_line : pystr) : bool :=
  existsb (fun pattern => re_match pattern clean_line) SUBJECT_PATTERNS.

Definition is_subtopic (line : pystr) : bool :=
  existsb (fun pattern => re_match pattern line) SUBTOPIC_PATTERNS.

(** The state of the loop of [extract_topics_from_pdf]. *)
Definition cursor : Type := (option pystr * TopicMap)%type.

(** One turn of the loop over [lines] (lines 72 to 92). *)
Definition primary_step (st : cursor) (line : pystr) : cursor :=
  let (current_subject, topics) := st in
  let clean_line := strip line in
  if negb (truthy clean_line) then st
  else if is_subject clean_line then
    (Some clean_line, Dict.set clean_line [] topics)
  else
    match current_subject with
    | Some subject =>
        if is_subtopic line || Str.contains two_spaces line then
          let subtopic := re_sub_empty STRIP_PATTERN clean_line in
          if truthy subtopic && (0 <? Z.of_nat (List.length (strip subtopic)))
          then (current_subject,
                Dict.update subject (fun l => l ++ [strip subtopic]) topics)
          else st
        else st
    | None => st
    end.

Definition primary_loop (lines : list pystr) : cursor :=
  fold_left primary_step lines (None, []).

(** [{k: v for k, v in topics.items() if v}] *)
Definition remove_empty (topics : TopicMap) : TopicMap :=
  List.filter (fun kv => match snd kv with [] => false | _ :: _ => true end) topics.

(** The test of the second pass (lines 123 to 126). *)
Definition is_loose_subject (clean_line : pystr) : bool :=
  (3 <? Z.of_nat (List.length clean_line))
  && (isupper clean_line
      || Str.endswith colon clean_line
      || re_match NUMBERED_HEADING clean_line).

Definition truthy_subject (current_subject : option pystr) : bool :=
  match current_subject with Some s => truthy s | None => false end.

(** One turn of the second loop (lines 118 to 130). *)
Definition alternative_step (st : cursor) (line : pystr) : cursor :=
  let (current_subject, topics) := st in
  let clean_line := strip line in
  if negb (truthy clean_line) then st
  else if is_loose_subject clean_line then
    (Some clean_line, Dict.set clean_line [] topics)
  else if truthy_subject current_subject && truthy clean_line then
    match current_subject with
    | Some subject =>
        (current_subject, Dict.update subject (fun l => l ++ [clean_line]) topics)
    | None => st
    end
  else st.

Definition alternative_loop (topics : TopicMap) (lines : list pystr) : TopicMap :=
  snd (fold_left alternative_step lines (None, topics)).

Definition DETECTED_CONTENT : pystr := lit "Detected Content".

(** [[line.strip() for line in lines if line.strip()][:10]] *)
Definition first_ten (lines : list pystr) : list pystr :=
  firstn 10 (List.filter truthy (List.map strip lines)).

Definition is_empty_dict {V} (d : Dict.dict V) : bool :=
  match d with [] => true | _ :: _ => false end.

(** [_clean_and_validate_topics]: the events it emits and the map it returns. *)
Definition _clean_and_validate_topics (topics : TopicMap) (lines : list pystr)
  : list event * TopicMap :=
  let topics := remove_empty topics in
  let (ev2, topics) :=
    if is_empty_dict topics
    then ([DebugAlternativeParsing], alternative_loop topics lines)
    else ([], topics) in
  let (ev3, topics) :=
    if is_empty_dict topics
    then ([WarningNoTopics], Dict.set DETECTED_CONTENT (first_ten lines) topics)
    else ([], topics) in
  (ev2 ++ ev3, topics).

(** The part of [extract_topics_from_pdf] that works on the split text. *)
Definition extract_from_lines (lines : list pystr) : list event * TopicMap :=
  _clean_and_validate_topics (snd (primary_loop lines)) lines.

(** What the file system and the PDF reader give for a path: the file does
    not open, the reader rejects it, or it has pages, each of which yields
    its text or raises. *)
Inductive pdf : Type :=
  | CannotOpen
  | CannotRead
  | Pages (pages : list (option pystr)).

(** The text accumulated over the pages; a page that raises adds nothing. *)
Definition document_text (pages : list (option pystr)) : pystr :=
  fold_left (fun text page =>
               match page with Some page_text => text ++ page_text | None => text end)
            pages [].

Definition document_lines (pages : list (option pystr)) : list pystr :=
  Str.split newline (document_text pages).

Definition ERROR : pystr := lit "Error".

Definition extract_topics_from_pdf (file : pdf) : list event * TopicMap :=
  match file with
  | CannotOpen => ([ErrorOpenFile], [(ERROR, [lit "Failed to open file"])])
  | CannotRead => ([ErrorReadPdf], [(ERROR, [lit "Failed to read PDF"])])
  | Pages pages => extract_from_lines (document_lines pages)
  end.

(** ** [StudyTracker]

    [checkbox_vars] maps an item's text to its [BooleanVar].  Every variable
    is created for one key and reached through that key only, so the registry
    is modelled by the value each variable holds. *)

Definition Registry : Type := Dict.dict bool.

Record StudyTracker : Type := {
  topics : TopicMap;
  checkbox_vars : Registry
}.

(** The registry after [_create_subject_frame]: one fresh variable, unset,
    for each item; an item already registered gets a new variable in its old
    place. *)
Definition _create_subject_frame (subject : pystr) (items : list pystr)
           (vars : Registry) : Registry :=
  fold_left (fun vars item => Dict.set item false vars) items vars.

(** The state of [progress.json] as [load_progress] finds it.  A stored value
    is given by the flag [BooleanVar.set] stores for it, or [None] when [set]
    rejects it and raises. *)
Inductive stored : Type :=
  | NoFile
  | Unreadable
  | Loaded (progress : list (pystr * option bool)).

(** The loop of [load_progress] (lines 260 to 262); [false] when it raised. *)
Fixpoint apply_items (progress : list (pystr * option bool)) (vars : Registry)
  : bool * Registry :=
  match progress with
  | [] => (true, vars)
  | (topic, is_completed) :: rest =>
      if Dict.mem topic vars then
        match is_completed with
        | Some flag => apply_items rest (Dict.update topic (fun _ => flag) vars)
        | None => (false, vars)
        end
      else apply_items rest vars
  end.

Definition load_progress (file : stored) (vars : Registry) : list event * Registry :=
  match file with
  | NoFile => ([], vars)
  | Unreadable => ([ErrorLoadProgress], vars)
  | Loaded progress =>
      let (ok, vars') := apply_items progress vars in
      ([if ok then DebugProgressLoaded else ErrorLoadProgress], vars')
  end.

Definition refresh_ui (file : stored) (t : StudyTracker) : list event * StudyTracker :=
  let vars :=
    fold_left (fun vars kv => _create_subject_frame (fst kv) (snd kv) vars)
              (topics t) (checkbox_vars t) in
  let (ev, vars') := load_progress file vars in
  (ev, {| topics := topics t; checkbox_vars := vars' |}).

(** [load_pdf]: [choice] is what the file dialog returns, [None] when it is
    dismissed. *)
Definition load_pdf (choice : option pdf) (file : stored) (t : StudyTracker)
  : list event * StudyTracker :=
  match choice with
  | None => ([], t)
  | Some document =>
      let (ev, extracted) := extract_topics_from_pdf document in
      let t' := {| topics := extracted; checkbox_vars := checkbox_vars t |} in
      if negb (is_empty_dict extracted) then
        let (ev', t'') := refresh_ui file t' in (ev ++ ev', t'')
      else (ev ++ [ErrorNoTopicsExtracted], t')
  end.

(** *** Saving: [json.dump] into a file opened with mode ['w'] *)

Definition QUOTE : Z := 34.
Definition BACKSLASH : Z := 92.

Definition hex_digit (n : Z) : Z := if n <? 10 then 48 + n else 87 + n.

(** ['\\u{0:04x}'.format(n)] for [n] below [0x10000] *)
Definition u_escape (n : Z) : pystr :=
  [BACKSLASH; ord "u"; hex_digit (Z.land (Z.shiftr n 12) 15);
   hex_digit (Z.land (Z.shiftr n 8) 15); hex_digit (Z.land (Z.shiftr n 4) 15);
   hex_digit (Z.land n 15)].

(** The replacement of one character in [encode_basestring_ascii]. *)
Definition escape_char (c : Z) : pystr :=
  if c =? BACKSLASH then [BACKSLASH; BACKSLASH]
  else if c =? QUOTE then [BACKSLASH; QUOTE]
  else if c =? 8 then [BACKSLASH; ord "b"]
  else if c =? 12 then [BACKSLASH; ord "f"]
  else if c =? 10 then [BACKSLASH; ord "n"]
  else if c =? 13 then [BACKSLASH; ord "r"]
  else if c =? 9 then [BACKSLASH; ord "t"]
  else if (32 <=? c) && (c <=? 126) then [c]
  else if c <? 65536 then u_escape c
  else
    let n := c - 65536 in
    u_escape (Z.lor 55296 (Z.land (Z.shiftr n 10) 1023))
    ++ u_escape (Z.lor 56320 (Z.land n 1023)).

Definition encode_basestring_ascii (s : pystr) : pystr :=
  QUOTE :: flat_map escape_char s ++ [QUOTE].

(** The chunks [json.dump] writes for a dictionary of flags, one [write]
    call each. *)
Fixpoint item_chunks (first : bool) (progress : list (pystr * bool)) : list pystr :=
  match progress with
  | [] => []
  | (key, value) :: rest =>
      (if first then [] else [lit ", "])
      ++ [encode_basestring_ascii key; lit ": ";
          if value then lit "true" else lit "false"]
      ++ item_chunks false rest
  end.

Definition json_chunks (progress : list (pystr * bool)) : list pystr :=
  match progress with
  | [] => [lit "{}"]
  | _ :: _ => [lit "{"] ++ item_chunks true progress ++ [lit "}"]
  end.

(** The whole text of a successful dump. *)
Definition json_text (progress : list (pystr * bool)) : pystr :=
  List.concat (json_chunks progress).

(** [progress.json]: absent, or present with some text. *)
Definition disk : Type := option pystr.

(** A text file opened for writing.  Python buffers it: a [write] adds to a
    buffer, and the buffer is emptied into the file when it is full and when
    the file is closed.  [room] is the number of characters the device still
    takes before it raises, [None] when it never does. *)
Record text_file : Type := {
  on_disk : pystr;
  buffered : pystr;
  room : option nat
}.

(** The size at which the buffer is emptied ([io.DEFAULT_BUFFER_SIZE]); no
    result below depends on it. *)
Definition BUFFER_SIZE : Z := 8192.

(** Emptying the buffer into the file; [false] when the device raised.
    What the device took before it raised is in the file, the rest stays in
    the buffer. *)
Definition flush (f : text_file) : bool * text_file :=
  match room f with
  | None =>
      (true, {| on_disk := on_disk f ++ buffered f; buffered := []; room := None |})
  | Some r =>
      if (List.length (buffered f) <=? r)%nat
      then (true, {| on_disk := on_disk f ++ buffered f; buffered := [];
                     room := Some (r - List.length (buffered f))%nat |})
      else (false, {| on_disk := on_disk f ++ firstn r (buffered f);
                      buffered := skipn r (buffered f); room := Some O |})
  end.

(** [fp.write(chunk)]: the chunk joins the buffer, which is emptied once it
    holds more than [size] characters. *)
Definition write (size : Z) (chunk : pystr) (f : text_file) : bool * text_file :=
  let f' := {| on_disk := on_disk f; buffered := buffered f ++ chunk; room := room f |} in
  if size <? Z.of_nat (List.length (buffered f')) then flush f' else (true, f').

(** The loop of [json.dump]: one [write] for each chunk, until one raises. *)
Fixpoint write_chunks (size : Z) (chunks : list pystr) (f : text_file)
  : bool * text_file :=
  match chunks with
  | [] => (true, f)
  | chunk :: chunks' =>
      let (ok, f') := write size chunk f in
      if ok then write_chunks size chunks' f' else (false, f')
  end.

(** Leaving the [with] block closes the file, whether the block raised or
    not: the buffer is emptied, and the close raises when that fails or when
    the device has a failure in store.  The text then in the file is
    returned. *)
Definition close (f : text_file) : bool * pystr :=
  let (flushed, f') := flush f in
  (flushed && match room f' with None => true | Some _ => false end, on_disk f').

(** [{key: var.get() for key, var in self.checkbox_vars.items()}] *)
Definition progress_of (t : StudyTracker) : list (pystr * bool) := checkbox_vars t.

(** [save_progress].  [fault] is what the file system does: [None],
    nothing fails; [Some 0], [open] raises; [Some (S n)], the file opens, [n]
    characters reach it, and then it raises, at a [write] that empties the
    buffer or at the latest when the file is closed.  [open(..., 'w')] creates
    the file or truncates it before anything is written.  The text is ASCII,
    so a character is a byte of the file. *)
Definition save_progress (fault : option nat) (file : disk) (t : StudyTracker)
  : list event * disk :=
  let progress := progress_of t in
  match fault with
  | Some O => ([ErrorSaveProgress], file)
  | _ =>
      let f := {| on_disk := []; buffered := []; room := one_less fault |} in
      let (written, f') := write_chunks BUFFER_SIZE (json_chunks progress) f in
      let (closed, text) := close f' in
      ([if written && closed then InfoProgressSaved else ErrorSaveProgress], Some text)
  end.

(** [check_progress]; the percentage shown in the report is left out. *)
Definition check_progress (fault : option nat) (file : disk) (t : StudyTracker)
  : list event * disk :=
  let completed := Dict.keys (List.filter (fun kv => snd kv) (checkbox_vars t)) in
  let incomplete := Dict.keys (List.filter (fun kv => negb (snd kv)) (checkbox_vars t)) in
  let total := (List.length completed + List.length incomplete)%nat in
  let message :=
    if (0 <? total)%nat then InfoProgressReport completed incomplete
    else InfoNoTopicsAvailable in
  let (ev, file') := save_progress fault file t in
  (message :: ev, file').

(** ** Scenarios and derived notions used in the statements *)

Definition scenario1 : list pystr :=
  [lit "Module I: [10L]"; lit "- Introduction to Testing"; lit "- Unit Tests";
   lit "Module II: [8L]"; lit "a) Integration"].

(** The map the specification gives for scenario 1. *)
Definition scenario1_expected : TopicMap :=
  [(lit "Module I: [10L]", [lit "Introduction to Testing"; lit "Unit Tests"]);
   (lit "Module II: [8L]", [lit "Integration"])].

(** The map the code returns for it. *)
Definition scenario1_returned : TopicMap :=
  [(lit "Module I: [10L]", [lit "Introduction to Testing"; lit "Unit Tests"]);
   (lit "Module II: [8L]", [lit "a) Integration"])].

Definition starts_with_marker (s : pystr) : bool :=
  match s with c :: _ => cset_mem MARKER c | [] => false end.

(** The primary-pass map: the fold, then the removal of empty subjects. *)
Definition tier1 (lines : list pystr) : TopicMap :=
  remove_empty (snd (primary_loop lines)).

(** The map the second pass builds; it starts from the emptied dictionary. *)
Definition tier2 (lines : list pystr) : TopicMap := alternative_loop [] lines.

Definition tier2_runs (lines : list pystr) : Prop :=
  In DebugAlternativeParsing (fst (extract_from_lines lines)).

Definition tier3_runs (lines : list pystr) : Prop :=
  In WarningNoTopics (fst (extract_from_lines lines)).

(** Escalation as the specification words it: both gates look at a map from
    which the empty subjects have been removed. *)
Definition gated_on_cleaned_maps (lines : list pystr) : Prop :=
  (tier2_runs lines <-> tier1 lines = [])
  /\ (tier3_runs lines <-> tier1 lines = [] /\ remove_empty (tier2 lines) = []).

Definition segment_lines : list pystr :=
  [lit "Topics:"; lit "- intro"; lit "see: alpha, beta"].

(** Stripping as the specification words it: no leading bullet glyph, no
    leading lettered-list marker, no leading numeric marker. *)
Definition starts_with_bullet (s : pystr) : bool :=
  match s with c :: _ => cset_mem (OneOf bullets) c | [] => false end.

(** A lower-case letter and a closing parenthesis, as in ["a) "]. *)
Definition LETTERED_MARKER : regex := cat [Bol; Set1 (OneOf [az "a" "z"]); chr ")"].

(** A run of digits and a period, as in ["1. "] or ["1.2 "]. *)
Definition NUMERIC_MARKER : regex := cat [Bol; plus digit; chr "."].

Definition marker_free (s : pystr) : bool :=
  negb (starts_with_bullet s)
  && negb (re_match LETTERED_MARKER s)
  && negb (re_match NUMERIC_MARKER s).

Definition stripping_as_specified : Prop :=
  forall lines subject items s,
    In (subject, items) (tier1 lines) -> In s items -> marker_free s = true.

(** Trimmed strings. *)
Definition no_leading_space (s : pystr) : Prop :=
  match s with c :: _ => Unicode.is_space c = false | [] => True end.

Definition no_trailing_space (s : pystr) : Prop := no_leading_space (rev s).

Definition all_space (ws : pystr) : Prop :=
  Forall (fun c => Unicode.is_space c = true) ws.

(** What the stripping step does to a trimmed line [t] to give [s]: nothing
    when [t] does not begin with a character of the marker set, and otherwise
    that one character goes, with the white space after it. *)
Definition marker_removed_once (t s : pystr) : Prop :=
  (t = s /\ starts_with_marker t = false)
  \/ (exists c ws, cset_mem MARKER c = true /\ all_space ws /\ t = c :: ws ++ s).

Definition marker_lines : list pystr :=
  [lit "Topics:"; lit "12.3 foo"; lit "- - x"; lit "a) y"].

(** The current subject, when there is one, is a key of the dictionary. *)
Definition subject_registered (st : cursor) : Prop :=
  match fst st with
  | Some subject => Dict.mem subject (snd st) = true
  | None => True
  end.

(** What is known of a subtopic stored from the lines [lines]. *)
Definition well_stored (lines : list pystr) (s : pystr) : Prop :=
  s <> [] /\ no_leading_space s /\ no_trailing_space s
  /\ exists line, In line lines /\ marker_removed_once (strip line) s.

Definition all_well_stored (lines : list pystr) (st : cursor) : Prop :=
  forall subject items s, In (subject, items) (snd st) -> In s items -> well_stored lines s.

(** All subtopics of a map, subject after subject. *)
Definition flatten (tm : TopicMap) : list pystr := List.concat (List.map snd tm).

(** A run of [load_pdf] calls: for each, the dialog's answer and what
    [progress.json] held at that time. *)
Definition session (loads : list (option pdf * stored)) (t : StudyTracker) : StudyTracker :=
  fold_left (fun t load => snd (load_pdf (fst load) (snd load) t)) loads t.

(** Atomicity as the specification words it. *)
Definition save_is_atomic : Prop :=
  forall fault file t,
    snd (save_progress fault file t) = Some (json_text (progress_of t))
    \/ (fst (save_progress fault file t) = [ErrorSaveProgress]
        /\ snd (save_progress fault file t) = file).

(** Reconciliation as the specification words it: the keys after [apply]
    are exactly the subtopics of the current map. *)
Definition reconciliation_exact : Prop :=
  forall file t k,
    In k (Dict.keys (checkbox_vars (snd (refresh_ui file t))))
    <-> In k (flatten (topics t)).

(** A record of flags as [load_progress] reads it: every value is one that
    [BooleanVar.set] accepts. *)
Definition as_loaded (record : list (pystr * bool)) : list (pystr * option bool) :=
  List.map (fun kv => (fst kv, Some (snd kv))) record.

Definition two_flags : StudyTracker :=
  {| topics := [(lit "Module I: [10L]", [lit "Unit Tests"; lit "Integration"])];
     checkbox_vars := [(lit "Unit Tests", true); (lit "Integration", false)] |}.

Definition second_document : StudyTracker :=
  {| topics := [(lit "Chapter:", [lit "New"])];
     checkbox_vars := [(lit "Old", true)] |}.


(** ** Further notions used in the statements *)

(** The texts of the pages that could be read, in page order. *)
Definition page_texts (pages : list (option pystr)) : list pystr :=
  flat_map (fun page => match page with Some page_text => [page_text] | None => [] end)
           pages.

(** [sep.join(lines)] for a one-character separator. *)
Fixpoint join (sep : Z) (lines : list pystr) : pystr :=
  match lines with
  | [] => []
  | [line] => line
  | line :: rest => line ++ sep :: join sep rest
  end.

(** A line that the loops do not skip. *)
Definition not_blank (line : pystr) : bool := truthy (strip line).


(** [k] added to the end of a list of keys unless it is there already. *)
Definition add_key (ks : list pystr) (k : pystr) : list pystr :=
  if existsb (fun k' => Str.eqb k' k) ks then ks else ks ++ [k].

(** The distinct elements of a list, in the order of their first occurrence. *)
Definition first_occurrences (l : list pystr) : list pystr := fold_left add_key l [].

(** The trimmed lines the primary loop takes for subjects, in document order. *)
Definition subject_lines (lines : list pystr) : list pystr :=
  List.filter (fun clean_line => truthy clean_line && is_subject clean_line)
              (List.map strip lines).

(** The trimmed lines the second pass takes for subjects. *)
Definition loose_subject_lines (lines : list pystr) : list pystr :=
  List.filter (fun clean_line => truthy clean_line && is_loose_subject clean_line)
              (List.map strip lines).

(** What the second pass keeps: subjects and subtopics are trimmed lines. *)
Definition taken_verbatim (lines : list pystr) (st : cursor) : Prop :=
  forall subject items,
    In (subject, items) (snd st) ->
    (exists line, In line lines /\ subject = strip line)
    /\ is_loose_subject subject = true
    /\ forall s, In s items ->
         s <> [] /\ is_loose_subject s = false
         /\ exists line, In line lines /\ s = strip line.


(** The subtopic patterns that can decide [is_subtopic]: the first three and
    the fifth. *)
Definition EFFECTIVE_SUBTOPIC_PATTERNS : list regex :=
  firstn 3 SUBTOPIC_PATTERNS ++ [nth 4 SUBTOPIC_PATTERNS Eps].


(** The tracker as [__init__] leaves it (lines 154 and 155). *)
Definition initial : StudyTracker := {| topics := []; checkbox_vars := [] |}.

(** The flag a record of flags gives for a key: its last entry for the key. *)
Fixpoint latest (record : list (pystr * bool)) (k : pystr) : option bool :=
  match record with
  | [] => None
  | (topic, flag) :: rest =>
      match latest rest k with
      | Some later => Some later
      | None => if Str.eqb topic k then Some flag else None
      end
  end.

(** Every subtopic on display has its check-box variable. *)
Definition covered (t : StudyTracker) : Prop :=
  forall k, In k (flatten (topics t)) -> In k (Dict.keys (checkbox_vars t)).

(** What holds of the tracker between two events. *)
Definition tracker_invariant (t : StudyTracker) : Prop :=
  covered t /\ NoDup (Dict.keys (checkbox_vars t)) /\ NoDup (Dict.keys (topics t)).

(** Printable ASCII, the characters from the space to the tilde. *)
Definition is_printable_ascii (c : Z) : bool := (32 <=? c) && (c <=? 126).

(** Everything written to a text file so far, in the file or still in its
    buffer. *)
Definition sent (f : text_file) : pystr := on_disk f ++ buffered f.

(** The device takes [n] characters in all. *)
Definition takes (n : nat) (f : text_file) : Prop :=
  exists r, room f = Some r /\ (List.length (on_disk f) + r = n)%nat.

(** The side effect of [check_progress] as the claim words it: after every
    call the file holds the current flags. *)
Definition check_always_overwrites : Prop :=
  forall fault file t,
    snd (check_progress fault file t) = Some (json_text (checkbox_vars t)).

(** ** Facts about strings and dictionaries *)

Lemma is_empty_dict_true {V} (d : Dict.dict V) : is_empty_dict d = true <-> d = [].
Proof. destruct d; simpl; split; congruence. Qed.

Lemma is_empty_dict_false {V} (d : Dict.dict V) : is_empty_dict d = false <-> d <> [].
Proof. destruct d; simpl; split; congruence. Qed.

Lemma eqb_eq (s t : pystr) : Str.eqb s t = true <-> s = t.
Proof.
  revert t. induction s as [|c s IH]; destruct t as [|d t]; simpl;
    try (split; congruence).
  rewrite andb_true_iff, Z.eqb_eq, IH. split; [intros [-> ->]; reflexivity|].
  intros E. inversion E. auto.
Qed.

Lemma fold_left_invariant {A B} (Inv : A -> Prop) (f : A -> B -> A)
      (l : list B) (a : A) :
  Inv a -> (forall a' x, In x l -> Inv a' -> Inv (f a' x)) -> Inv (fold_left f l a).
Proof.
  revert a. induction l as [|x l IH]; simpl; intros a Ha Hf; [exact Ha|].
  apply IH; [apply Hf; auto | intros a' y Hy; apply Hf; auto].
Qed.

Lemma dict_set_not_nil {V} (k : pystr) (v : V) (d : Dict.dict V) : Dict.set k v d <> [].
Proof.
  destruct d as [|[k' v'] d]; simpl; [discriminate|].
  destruct (Str.eqb k' k); discriminate.
Qed.

(** ** The extractor *)

(** C1, as the specification states it, fails: for the five lines of
    scenario 1 the primary pass does not return the map with the subtopic
    ["Integration"]. *)
Lemma scenario1_not_as_specified : tier1 scenario1 <> scenario1_expected.
Proof. vm_compute. discriminate. Qed.

(** C1, amended: for the five lines of scenario 1 the fold followed by the
    cleaning returns, in this order, ["Module I: [10L]"] with
    ["Introduction to Testing"] and ["Unit Tests"], then ["Module II: [8L]"]
    with ["a) Integration"]: the lettered marker is kept.  The whole
    extraction returns the same map and emits nothing. *)
Theorem scenario1_result :
  tier1 scenario1 = scenario1_returned
  /\ extract_from_lines scenario1 = ([], scenario1_returned).
Proof. split; vm_compute; reflexivity. Qed.

Lemma events_of_clean (topics : TopicMap) (lines : list pystr) :
  fst (_clean_and_validate_topics topics lines) =
  (if is_empty_dict (remove_empty topics) then [DebugAlternativeParsing] else [])
  ++ (if is_empty_dict (remove_empty topics)
      then if is_empty_dict (alternative_loop (remove_empty topics) lines)
           then [WarningNoTopics] else []
      else []).
Proof.
  unfold _clean_and_validate_topics.
  destruct (is_empty_dict (remove_empty topics)) eqn:E1.
  - destruct (is_empty_dict (alternative_loop (remove_empty topics) lines)); reflexivity.
  - rewrite E1. reflexivity.
Qed.

Lemma tier2_runs_iff (lines : list pystr) : tier2_runs lines <-> tier1 lines = [].
Proof.
  unfold tier2_runs, extract_from_lines. rewrite events_of_clean. fold (tier1 lines).
  destruct (is_empty_dict (tier1 lines)) eqn:E.
  - apply is_empty_dict_true in E. split; [auto | intros _; simpl; auto].
  - apply is_empty_dict_false in E. simpl. tauto.
Qed.

Lemma tier3_runs_iff (lines : list pystr) :
  tier3_runs lines <-> tier1 lines = [] /\ tier2 lines = [].
Proof.
  unfold tier3_runs, extract_from_lines. rewrite events_of_clean. fold (tier1 lines).
  destruct (is_empty_dict (tier1 lines)) eqn:E.
  - apply is_empty_dict_true in E. rewrite E. fold (tier2 lines).
    destruct (is_empty_dict (tier2 lines)) eqn:E2.
    + apply is_empty_dict_true in E2. simpl. tauto.
    + apply is_empty_dict_false in E2. simpl.
      split; [intros [H|[]]; discriminate | tauto].
  - apply is_empty_dict_false in E. simpl. tauto.
Qed.

(** C3, as the specification states it, fails: for the single line
    ["HEADING:"] the second pass leaves one subject with an empty list, so
    its map is empty once cleaned, and yet the third tier does not run. *)
Lemma heading_only_not_gated : ~ gated_on_cleaned_maps [lit "HEADING:"].
Proof.
  intros [_ [_ H]].
  assert (T : tier3_runs [lit "HEADING:"]) by (apply H; split; vm_compute; reflexivity).
  apply tier3_runs_iff in T. destruct T as [_ T]. vm_compute in T. discriminate.
Qed.

(** C3, amended: the second pass runs if and only if the primary map is
    empty once its empty subjects are removed; the third tier runs if and
    only if the second pass ran and left a map with no subject at all.  The
    map of the second pass is not cleaned before that test. *)
Theorem escalation_gating (lines : list pystr) :
  (tier2_runs lines <-> tier1 lines = [])
  /\ (tier3_runs lines <-> tier1 lines = [] /\ tier2 lines = []).
Proof. split; [apply tier2_runs_iff | apply tier3_runs_iff]. Qed.

Lemma clean_and_validate_not_nil (topics : TopicMap) (lines : list pystr) :
  snd (_clean_and_validate_topics topics lines) <> [].
Proof.
  unfold _clean_and_validate_topics.
  destruct (is_empty_dict (remove_empty topics)) eqn:E1.
  - destruct (is_empty_dict (alternative_loop (remove_empty topics) lines)) eqn:E2; simpl.
    + apply dict_set_not_nil.
    + apply is_empty_dict_false; exact E2.
  - rewrite E1. simpl. apply is_empty_dict_false; exact E1.
Qed.

(** C4: when the pages open and are read, and some line of the text is not
    empty after trimming, the extraction returns a map with at least one
    subject. *)
Theorem extraction_not_empty (pages : list (option pystr)) :
  (exists line, In line (document_lines pages) /\ strip line <> []) ->
  snd (extract_topics_from_pdf (Pages pages)) <> [].
Proof. intros _. apply clean_and_validate_not_nil. Qed.

Lemma extraction_not_empty_witness :
  (exists line, In line (document_lines [Some (lit "hello")]) /\ strip line <> [])
  /\ snd (extract_topics_from_pdf (Pages [Some (lit "hello")])) <> [].
Proof.
  assert (H : exists line,
             In line (document_lines [Some (lit "hello")]) /\ strip line <> []).
  { exists (lit "hello"). split; [vm_compute; auto | vm_compute; discriminate]. }
  split; [exact H | exact (extraction_not_empty [Some (lit "hello")] H)].
Defined.

Lemma primary_step_blank (st : cursor) (line : pystr) :
  strip line = [] -> primary_step st line = st.
Proof. intros H. unfold primary_step. destruct st. rewrite H. reflexivity. Qed.

Lemma alternative_step_blank (st : cursor) (line : pystr) :
  strip line = [] -> alternative_step st line = st.
Proof. intros H. unfold alternative_step. destruct st. rewrite H. reflexivity. Qed.

Lemma fold_left_fixed {A B} (f : A -> B -> A) (l : list B) (a : A) :
  (forall x, In x l -> f a x = a) -> fold_left f l a = a.
Proof.
  induction l as [|x l IH]; simpl; intros H; [reflexivity|].
  rewrite (H x) by auto. apply IH. intros y Hy. apply H. auto.
Qed.

Lemma first_ten_blank (lines : list pystr) :
  (forall line, In line lines -> strip line = []) -> first_ten lines = [].
Proof.
  intros H. unfold first_ten.
  replace (List.filter truthy (List.map strip lines)) with (@nil pystr); [reflexivity|].
  induction lines as [|l lines IH]; simpl; [reflexivity|].
  rewrite (H l) by (simpl; auto). simpl. apply IH. intros x Hx. apply H. simpl; auto.
Qed.

Lemma first_ten_not_empty (lines : list pystr) :
  (exists line, In line lines /\ strip line <> []) -> first_ten lines <> [].
Proof.
  intros [line [Hin Hne]]. unfold first_ten.
  assert (F : In (strip line) (List.filter truthy (List.map strip lines))).
  { apply filter_In. split; [apply in_map, Hin|]. destruct (strip line); [congruence | reflexivity]. }
  destruct (List.filter truthy (List.map strip lines)); [destruct F | discriminate].
Qed.

(** With a line that is not blank, the list under ["Detected Content"] is
    not empty either. *)
Lemma detected_content_not_empty (lines : list pystr) :
  (exists line, In line lines /\ strip line <> []) -> tier3_runs lines ->
  exists items, items <> [] /\ snd (extract_from_lines lines) = [(DETECTED_CONTENT, items)].
Proof.
  intros H T. apply tier3_runs_iff in T. destruct T as [T1 T2].
  exists (first_ten lines). split; [apply first_ten_not_empty, H|].
  unfold extract_from_lines, _clean_and_validate_topics. fold (tier1 lines).
  rewrite T1. cbn [is_empty_dict]. fold (tier2 lines). rewrite T2. reflexivity.
Qed.

(** C5, as the specification states it, fails: a document that opens and
    has no page does not give the empty map. *)
Lemma no_pages_not_empty : snd (extract_topics_from_pdf (Pages [])) <> [].
Proof. vm_compute. discriminate. Qed.

(** C5, amended: when the document opens and every line of its text is
    empty after trimming, the extraction does not fail; it logs the second
    pass, emits the no-topics warning, and returns the one-entry map whose key
    is ["Detected Content"] and whose list is empty.  That map is not the
    ["Error"] sentinel. *)
Theorem blank_document_result (pages : list (option pystr)) :
  (forall line, In line (document_lines pages) -> strip line = []) ->
  extract_topics_from_pdf (Pages pages)
  = ([DebugAlternativeParsing; WarningNoTopics], [(DETECTED_CONTENT, [])])
  /\ Dict.keys (snd (extract_topics_from_pdf (Pages pages))) <> [ERROR].
Proof.
  intros H. simpl extract_topics_from_pdf.
  assert (E : extract_from_lines (document_lines pages)
              = ([DebugAlternativeParsing; WarningNoTopics], [(DETECTED_CONTENT, [])])).
  { unfold extract_from_lines, primary_loop, _clean_and_validate_topics.
    rewrite fold_left_fixed by (intros; apply primary_step_blank; auto).
    simpl. unfold alternative_loop.
    rewrite fold_left_fixed by (intros; apply alternative_step_blank; auto).
    simpl. rewrite first_ten_blank by exact H. reflexivity. }
  rewrite E. split; [reflexivity | vm_compute; discriminate].
Qed.

Lemma blank_document_result_witness :
  extract_topics_from_pdf (Pages [Some (lit "  "); None; Some [32; newline; 9]])
  = ([DebugAlternativeParsing; WarningNoTopics], [(DETECTED_CONTENT, [])])
  /\ Dict.keys (snd (extract_topics_from_pdf
                       (Pages [Some (lit "  "); None; Some [32; newline; 9]])))
     <> [ERROR].
Proof.
  apply (blank_document_result [Some (lit "  "); None; Some [32; newline; 9]]).
  intros line Hin. vm_compute in Hin.
  destruct Hin as [<-|[<-|[]]]; reflexivity.
Defined.

(** Under [re.match] the colon-segment pattern cannot match: the match must
    start at the first character, where the look-behind has nothing to look
    at. *)
Lemma colon_segment_never_matches (line : pystr) : re_match COLON_SEGMENT line = false.
Proof. reflexivity. Qed.

(** C6 (the code departs from the claim): the line ["see: alpha, beta"] has
    a segment between a colon and the next comma, as [re.search] with the
    sixth pattern finds, yet [is_subtopic] is false for it; following the
    subject ["Topics:"] and holding no two consecutive spaces, it is not
    retained by the primary pass. *)
Theorem segment_line_dropped :
  re_search COLON_SEGMENT (lit "see: alpha, beta") = true
  /\ is_subject (strip (lit "see: alpha, beta")) = false
  /\ is_subtopic (lit "see: alpha, beta") = false
  /\ Str.contains two_spaces (lit "see: alpha, beta") = false
  /\ tier1 segment_lines = [(lit "Topics:", [lit "intro"])].
Proof. repeat split; vm_compute; reflexivity. Qed.

(** *** The loops never index a missing key

    [topics[current_subject].append(...)] would raise [KeyError] on a subject
    that is not a key; in both loops the current subject is always one. *)

Lemma mem_set_same {V} (k : pystr) (v : V) (d : Dict.dict V) :
  Dict.mem k (Dict.set k v d) = true.
Proof.
  unfold Dict.mem. induction d as [|[k' v'] d IH]; simpl.
  - rewrite (proj2 (eqb_eq k k) eq_refl). reflexivity.
  - destruct (Str.eqb k' k) eqn:E; simpl; rewrite E; [reflexivity | exact IH].
Qed.

Lemma mem_update {V} (k k0 : pystr) (f : V -> V) (d : Dict.dict V) :
  Dict.mem k0 (Dict.update k f d) = Dict.mem k0 d.
Proof.
  unfold Dict.mem. induction d as [|[k' v'] d IH]; simpl; [reflexivity|].
  destruct (Str.eqb k' k); simpl; destruct (Str.eqb k' k0); auto.
Qed.

Lemma primary_step_registered (st : cursor) (line : pystr) :
  subject_registered st -> subject_registered (primary_step st line).
Proof.
  destruct st as [current_subject topics]. unfold primary_step, subject_registered.
  intros H. destruct (truthy (strip line)); cbn [negb]; [|exact H].
  destruct (is_subject (strip line)); [apply mem_set_same|].
  destruct current_subject as [subject|]; [|exact H].
  destruct (is_subtopic line || Str.contains two_spaces line); [|exact H].
  destruct (_ && _); [|exact H]. cbn [fst snd] in *. rewrite mem_update. exact H.
Qed.

Lemma alternative_step_registered (st : cursor) (line : pystr) :
  subject_registered st -> subject_registered (alternative_step st line).
Proof.
  destruct st as [current_subject topics]. unfold alternative_step, subject_registered.
  intros H. destruct (truthy (strip line)); cbn [negb]; [|exact H].
  destruct (is_loose_subject (strip line)); [apply mem_set_same|].
  destruct (truthy_subject current_subject && true); [|exact H].
  destruct current_subject as [subject|]; [|exact H].
  cbn [fst snd] in *. rewrite mem_update. exact H.
Qed.

Lemma loops_registered (lines : list pystr) (topics : TopicMap) :
  subject_registered (primary_loop lines)
  /\ subject_registered (fold_left alternative_step lines (None, topics)).
Proof.
  split; [unfold primary_loop|]; apply fold_left_invariant;
    try exact I; intros st line _ H;
    [apply primary_step_registered | apply alternative_step_registered]; exact H.
Qed.

(** *** The stripping step *)

Lemma lstrip_split (s : pystr) : exists ws, s = ws ++ lstrip s /\ all_space ws.
Proof.
  induction s as [|c s [ws [E F]]]; simpl.
  - exists []. split; [reflexivity | constructor].
  - destruct (Unicode.is_space c) eqn:Hc.
    + exists (c :: ws). split; [simpl; congruence | constructor; assumption].
    + exists []. split; [reflexivity | constructor].
Qed.

Lemma lstrip_no_leading (s : pystr) : no_leading_space (lstrip s).
Proof.
  induction s as [|c s IH]; simpl; [exact I|].
  destruct (Unicode.is_space c) eqn:Hc; [exact IH | exact Hc].
Qed.

Lemma lstrip_id (s : pystr) : no_leading_space s -> lstrip s = s.
Proof. destruct s as [|c s]; simpl; intros H; [reflexivity | rewrite H; reflexivity]. Qed.

Lemma rstrip_id (s : pystr) : no_trailing_space s -> rstrip s = s.
Proof. intros H. unfold rstrip. rewrite lstrip_id by exact H. apply rev_involutive. Qed.

Lemma rstrip_split (s : pystr) : exists ws, s = rstrip s ++ ws /\ all_space ws.
Proof.
  destruct (lstrip_split (rev s)) as [ws [E F]].
  exists (rev ws). split.
  - unfold rstrip. rewrite <- rev_app_distr, <- E. symmetry. apply rev_involutive.
  - unfold all_space in *. rewrite Forall_forall in *. intros x Hx. apply F, in_rev, Hx.
Qed.

Lemma no_leading_prefix (a b : pystr) :
  no_leading_space (a ++ b) -> a <> [] -> no_leading_space a.
Proof. destruct a; simpl; [congruence | auto]. Qed.

Lemma strip_no_trailing (s : pystr) : no_trailing_space (strip s).
Proof.
  unfold no_trailing_space, strip, rstrip. rewrite rev_involutive. apply lstrip_no_leading.
Qed.

Lemma strip_no_leading (s : pystr) : no_leading_space (strip s).
Proof.
  unfold strip. destruct (rstrip_split (lstrip s)) as [ws [E _]].
  destruct (rstrip (lstrip s)) as [|c u] eqn:R; [exact I|].
  apply (no_leading_prefix (c :: u) ws); [|discriminate].
  rewrite <- E. apply lstrip_no_leading.
Qed.

Lemma strip_id (s : pystr) : no_leading_space s -> no_trailing_space s -> strip s = s.
Proof. intros L T. unfold strip. rewrite lstrip_id by exact L. apply rstrip_id, T. Qed.

Lemma lstrip_length (s : pystr) : (List.length (lstrip s) <= List.length s)%nat.
Proof.
  induction s as [|c s IH]; simpl; [lia|].
  destruct (Unicode.is_space c); simpl; lia.
Qed.

Lemma cset_mem_space (x : Z) : cset_mem space x = Unicode.is_space x.
Proof. unfold cset_mem, space. simpl. apply orb_false_r. Qed.

(** A greedy run of white space before a continuation that always accepts
    takes all the white space there is. *)
Lemma rep_space_all (s b : pystr) :
  exists b', rep (cset_mem space) 0 None b s (fun b0 s0 => Some (b0, s0))
             = Some (b', lstrip s)
             /\ (b <> [] -> b' <> []).
Proof.
  revert b. induction s as [|x s IH]; intros b; cbn [rep stop_here lstrip].
  - exists b. split; [reflexivity | auto].
  - rewrite cset_mem_space. destruct (Unicode.is_space x) eqn:Hx;
      cbn [andb may_repeat one_less Nat.pred stop_here].
    + destruct (IH (x :: b)) as [b' [E N]]. rewrite E.
      exists b'. split; [reflexivity | intros _; apply N; discriminate].
    + exists b. split; [reflexivity | auto].
Qed.

Lemma strip_pattern_at_start (c : Z) (rest : pystr) :
  Unicode.is_space c = false ->
  match_at STRIP_PATTERN [] (c :: rest)
  = if cset_mem MARKER c
    then rep (cset_mem space) 0 None [c] rest (fun b0 s0 => Some (b0, s0))
    else None.
Proof.
  intros Hc. unfold match_at, STRIP_PATTERN, cat, star. simpl fold_right.
  cbn [run]. cbn [rep]. rewrite cset_mem_space, Hc. cbn [andb stop_here run].
  destruct (cset_mem MARKER c); reflexivity.
Qed.

Lemma strip_pattern_not_at_start (b s : pystr) :
  b <> [] -> match_at STRIP_PATTERN b s = None.
Proof. destruct b; [congruence | reflexivity]. Qed.

Lemma delete_after_start (fuel : nat) (b s : pystr) :
  b <> [] -> delete_matches fuel STRIP_PATTERN b s = s.
Proof.
  revert b s. induction fuel as [|fuel IH]; intros b s Hb; [reflexivity|].
  cbn [delete_matches]. rewrite strip_pattern_not_at_start by exact Hb.
  destruct s as [|x s]; [reflexivity|]. rewrite IH by discriminate. reflexivity.
Qed.

(** The stripping step on a line that does not begin with white space. *)
Lemma re_sub_strip (c : Z) (rest : pystr) :
  Unicode.is_space c = false ->
  re_sub_empty STRIP_PATTERN (c :: rest)
  = if cset_mem MARKER c then lstrip rest else c :: rest.
Proof.
  intros Hc. unfold re_sub_empty. cbn [delete_matches].
  rewrite strip_pattern_at_start by exact Hc.
  destruct (cset_mem MARKER c).
  - destruct (rep_space_all rest [c]) as [b' [E N]]. rewrite E.
    assert (L : (List.length (lstrip rest) <? List.length (c :: rest))%nat = true).
    { apply Nat.ltb_lt. pose proof (lstrip_length rest). simpl. lia. }
    rewrite L. apply delete_after_start, N. discriminate.
  - rewrite delete_after_start by discriminate. reflexivity.
Qed.

(** *** The fold keeps every stored subtopic well formed *)

Lemma in_dict_set {V} (k k0 : pystr) (v v0 : V) (d : Dict.dict V) :
  In (k0, v0) (Dict.set k v d) -> In (k0, v0) d \/ v0 = v.
Proof.
  induction d as [|[k' v'] d IH]; simpl.
  - intros [H|[]]. right. congruence.
  - destruct (Str.eqb k' k); simpl; intros [H|H]; auto.
    + right. congruence.
    + destruct (IH H); auto.
Qed.

Lemma in_dict_update {V} (k k0 : pystr) (f : V -> V) (v0 : V) (d : Dict.dict V) :
  In (k0, v0) (Dict.update k f d) ->
  In (k0, v0) d \/ exists v', In (k0, v') d /\ v0 = f v'.
Proof.
  induction d as [|[k' v'] d IH]; simpl; [tauto|].
  destruct (Str.eqb k' k); simpl; intros [H|H]; auto.
  - right. exists v'. split; [left|]; congruence.
  - destruct (IH H) as [H'|[w [H1 H2]]]; [auto|]. right. exists w. auto.
Qed.

(** The subtopic kept for a trimmed, non-empty line. *)
Lemma stripped_subtopic (t : pystr) :
  t <> [] -> no_leading_space t -> no_trailing_space t ->
  strip (re_sub_empty STRIP_PATTERN t) <> [] ->
  no_leading_space (strip (re_sub_empty STRIP_PATTERN t))
  /\ no_trailing_space (strip (re_sub_empty STRIP_PATTERN t))
  /\ marker_removed_once t (strip (re_sub_empty STRIP_PATTERN t)).
Proof.
  intros Ht L T Hs.
  split; [apply strip_no_leading | split; [apply strip_no_trailing|]].
  destruct t as [|c rest]; [congruence|]. simpl in L.
  rewrite re_sub_strip in * by exact L.
  destruct (cset_mem MARKER c) eqn:M.
  - right. destruct (lstrip_split rest) as [ws [E F]].
    assert (U : lstrip rest <> []) by (intros U; rewrite U in Hs; apply Hs; reflexivity).
    assert (T' : no_trailing_space (lstrip rest)).
    { unfold no_trailing_space in *. apply (no_leading_prefix _ (rev (c :: ws))).
      - rewrite <- rev_app_distr. simpl. rewrite <- E. exact T.
      - intros R. apply U. rewrite <- (rev_involutive (lstrip rest)), R. reflexivity. }
    rewrite strip_id by (auto using lstrip_no_leading).
    exists c, ws. repeat split; [exact M | exact F | congruence].
  - left. rewrite strip_id by assumption. split; [reflexivity | exact M].
Qed.

Lemma primary_step_well_stored (lines : list pystr) (st : cursor) (line : pystr) :
  In line lines -> all_well_stored lines st -> all_well_stored lines (primary_step st line).
Proof.
  intros Hin Inv. destruct st as [current_subject topics]. unfold primary_step.
  destruct (truthy (strip line)) eqn:Hclean; cbn [negb]; [|exact Inv].
  destruct (is_subject (strip line)).
  - intros subject items s H1 H2. cbn [snd] in H1.
    apply in_dict_set in H1. destruct H1 as [H1|H1].
    + exact (Inv subject items s H1 H2).
    + subst items. destruct H2.
  - destruct current_subject as [subject0|]; [|exact Inv].
    destruct (is_subtopic line || Str.contains two_spaces line); [|exact Inv].
    destruct (truthy (re_sub_empty STRIP_PATTERN (strip line))
              && (0 <? Z.of_nat (List.length (strip (re_sub_empty STRIP_PATTERN (strip line))))))
      eqn:Keep; [|exact Inv].
    apply andb_true_iff in Keep. destruct Keep as [_ Keep]. apply Z.ltb_lt in Keep.
    assert (Hs : strip (re_sub_empty STRIP_PATTERN (strip line)) <> []).
    { intros E. rewrite E in Keep. simpl in Keep. lia. }
    assert (Ht : strip line <> []) by (intros E; rewrite E in Hclean; discriminate).
    pose proof (stripped_subtopic (strip line) Ht (strip_no_leading line)
                                  (strip_no_trailing line) Hs) as [P1 [P2 P3]].
    intros subject items s H1 H2. cbn [snd] in H1.
    apply in_dict_update in H1. destruct H1 as [H1|[items' [H1 E]]].
    + exact (Inv subject items s H1 H2).
    + subst items. apply in_app_or in H2. destruct H2 as [H2|[H2|[]]].
      * exact (Inv subject items' s H1 H2).
      * subst s. split; [exact Hs|]. split; [exact P1|]. split; [exact P2|].
        exists line. split; assumption.
Qed.

Lemma primary_loop_well_stored (lines : list pystr) :
  all_well_stored lines (primary_loop lines).
Proof.
  unfold primary_loop. apply fold_left_invariant.
  - intros subject items s [].
  - intros st line Hin Inv. apply primary_step_well_stored; assumption.
Qed.

(** C2, as the specification states it, fails: in scenario 1 the subtopic
    stored for ["a) Integration"] still begins with its lettered marker. *)
Lemma stripping_not_as_specified : ~ stripping_as_specified.
Proof.
  intros H.
  specialize (H scenario1 (lit "Module II: [8L]") [lit "a) Integration"]
                (lit "a) Integration")).
  assert (E : marker_free (lit "a) Integration") = true).
  { apply H; [vm_compute; auto | left; reflexivity]. }
  vm_compute in E. discriminate.
Qed.

(** The other two kinds of marker can remain as well: of ["12.3 foo"] only
    the first digit goes, of ["- - x"] only the first hyphen. *)
Example markers_left_behind :
  tier1 marker_lines = [(lit "Topics:", [lit "2.3 foo"; lit "- x"; lit "a) y"])]
  /\ List.map marker_free [lit "2.3 foo"; lit "- x"; lit "a) y"] = [false; false; false].
Proof. split; vm_compute; reflexivity. Qed.

Lemma bullet_is_marker (c : Z) :
  cset_mem (OneOf bullets) c = true -> cset_mem MARKER c = true.
Proof.
  unfold MARKER, cset_mem. intros H. rewrite existsb_app, H. reflexivity.
Qed.

(** C2, amended: every subtopic retained in the primary-pass map is not
    empty, has no white space at either end, and is the end of the trimmed
    text of a line of the input: the trimmed line is what was removed followed
    by the subtopic.  When the trimmed line begins with a bullet glyph (one of
    [- • ● ※ *]), what was removed is that one glyph and the white space after
    it; when it begins with no character of the stripping set (bullet glyph,
    digit, period), as with a lettered marker, nothing was removed and the
    subtopic is the trimmed line.  For a line that begins with a digit or a
    period nothing is stated of what was removed. *)
Theorem retained_subtopic_shape (lines : list pystr) (subject : pystr)
        (items : list pystr) (s : pystr) :
  In (subject, items) (tier1 lines) -> In s items ->
  s <> [] /\ no_leading_space s /\ no_trailing_space s
  /\ exists line removed,
       In line lines
       /\ strip line = removed ++ s
       /\ (starts_with_bullet (strip line) = true ->
           exists glyph ws,
             cset_mem (OneOf bullets) glyph = true /\ all_space ws
             /\ removed = glyph :: ws)
       /\ (starts_with_marker (strip line) = false -> removed = []).
Proof.
  intros H1 H2. unfold tier1, remove_empty in H1. apply filter_In in H1.
  destruct H1 as [H1 _].
  destruct (primary_loop_well_stored lines subject items s H1 H2)
    as [N [L [T [line [Hin Hm]]]]].
  split; [exact N|]. split; [exact L|]. split; [exact T|].
  destruct Hm as [[E M]|[c [ws [M [F E]]]]].
  - exists line, []. split; [exact Hin|]. split; [exact E|].
    split; [|reflexivity].
    intros B. destruct (strip line) as [|c t]; [discriminate|].
    unfold starts_with_bullet in B. unfold starts_with_marker in M.
    apply bullet_is_marker in B. congruence.
  - exists line, (c :: ws). split; [exact Hin|]. split; [exact E|]. rewrite E. split.
    + intros B. exists c, ws. unfold starts_with_bullet in B. auto.
    + intros M'. unfold starts_with_marker in M'. cbn [app] in M'. congruence.
Qed.

Lemma retained_subtopic_shape_witness :
  lit "Unit Tests" <> [] /\ no_leading_space (lit "Unit Tests")
  /\ no_trailing_space (lit "Unit Tests")
  /\ exists line removed,
       In line scenario1
       /\ strip line = removed ++ lit "Unit Tests"
       /\ (starts_with_bullet (strip line) = true ->
           exists glyph ws,
             cset_mem (OneOf bullets) glyph = true /\ all_space ws
             /\ removed = glyph :: ws)
       /\ (starts_with_marker (strip line) = false -> removed = []).
Proof.
  apply (retained_subtopic_shape scenario1 (lit "Module I: [10L]")
           [lit "Introduction to Testing"; lit "Unit Tests"] (lit "Unit Tests")).
  - vm_compute. left. reflexivity.
  - right. left. reflexivity.
Defined.

(** ** The progress store *)

Lemma keys_set {V} (k x : pystr) (v : V) (d : Dict.dict V) :
  In x (Dict.keys (Dict.set k v d)) <-> In x (Dict.keys d) \/ x = k.
Proof.
  induction d as [|[k' v'] d IH]; simpl.
  - split; [intros [H|[]]; auto | intros [[]|H]; auto].
  - destruct (Str.eqb k' k) eqn:E; simpl.
    + apply eqb_eq in E. subst k'. split; [tauto | intros [H|H]; auto].
    + rewrite IH. tauto.
Qed.

Lemma keys_update {V} (k : pystr) (f : V -> V) (d : Dict.dict V) :
  Dict.keys (Dict.update k f d) = Dict.keys d.
Proof.
  induction d as [|[k' v'] d IH]; simpl; [reflexivity|].
  destruct (Str.eqb k' k); simpl; [reflexivity | f_equal; exact IH].
Qed.

Lemma keys_create_subject_frame (subject : pystr) (items : list pystr)
      (vars : Registry) (x : pystr) :
  In x (Dict.keys (_create_subject_frame subject items vars))
  <-> In x (Dict.keys vars) \/ In x items.
Proof.
  unfold _create_subject_frame. revert vars.
  induction items as [|i items IH]; intros vars; simpl; [tauto|].
  rewrite IH, keys_set. split; intros H; intuition auto.
Qed.

Lemma keys_all_frames (tm : TopicMap) (vars : Registry) (x : pystr) :
  In x (Dict.keys (fold_left (fun vars kv => _create_subject_frame (fst kv) (snd kv) vars)
                             tm vars))
  <-> In x (Dict.keys vars) \/ In x (flatten tm).
Proof.
  revert vars. induction tm as [|[subject items] tm IH]; intros vars; simpl.
  - unfold flatten. simpl. tauto.
  - rewrite IH, keys_create_subject_frame. unfold flatten. simpl.
    rewrite in_app_iff. tauto.
Qed.

Lemma keys_apply_items (progress : list (pystr * option bool)) (vars : Registry) :
  Dict.keys (snd (apply_items progress vars)) = Dict.keys vars.
Proof.
  revert vars. induction progress as [|[topic is_completed] rest IH]; intros vars;
    simpl; [reflexivity|].
  destruct (Dict.mem topic vars); [|apply IH].
  destruct is_completed as [flag|]; [|reflexivity].
  rewrite IH. apply keys_update.
Qed.

Lemma keys_load_progress (file : stored) (vars : Registry) :
  Dict.keys (snd (load_progress file vars)) = Dict.keys vars.
Proof.
  destruct file as [| |progress]; simpl; try reflexivity.
  pose proof (keys_apply_items progress vars) as H.
  destruct (apply_items progress vars). exact H.
Qed.

Lemma keys_refresh_ui (file : stored) (t : StudyTracker) (x : pystr) :
  In x (Dict.keys (checkbox_vars (snd (refresh_ui file t))))
  <-> In x (Dict.keys (checkbox_vars t)) \/ In x (flatten (topics t)).
Proof.
  unfold refresh_ui.
  set (vars := fold_left _ (topics t) (checkbox_vars t)).
  pose proof (keys_load_progress file vars) as H.
  destruct (load_progress file vars) as [ev vars']. simpl in *.
  rewrite H. apply keys_all_frames.
Qed.

(** C8, as the specification states it, fails: with ["Old"] registered by
    an earlier document, a refresh for a map whose only subtopic is ["New"]
    leaves ["Old"] among the keys. *)
Lemma reconciliation_not_exact : ~ reconciliation_exact.
Proof.
  intros H. specialize (H NoFile second_document (lit "Old")).
  destruct H as [H _].
  assert (F : In (lit "Old") (flatten (topics second_document))).
  { apply H. vm_compute. auto. }
  vm_compute in F. destruct F as [F|[]]. discriminate.
Qed.

Lemma apply_items_flags (record : list (pystr * bool)) (vars : Registry) :
  fst (apply_items (as_loaded record) vars) = true.
Proof.
  revert vars. induction record as [|[topic flag] rest IH]; intros vars; simpl;
    [reflexivity|].
  destruct (Dict.mem topic vars); apply IH.
Qed.

(** C8, amended: after the reconciliation the registry's keys are the keys
    it had before together with the subtopics of the current map: no
    subtopic of the map is missing, no key is dropped, and the loaded record,
    whatever it holds, adds no key.  With an empty registry beforehand the
    keys are exactly the subtopics of the map.  A loaded record of flags is
    applied without error, stale keys included. *)
Theorem reconciliation_keys (file : stored) (t : StudyTracker) (k : pystr)
        (record : list (pystr * bool)) :
  (In k (Dict.keys (checkbox_vars (snd (refresh_ui file t))))
   <-> In k (Dict.keys (checkbox_vars t)) \/ In k (flatten (topics t)))
  /\ (In k (Dict.keys (checkbox_vars
                         (snd (refresh_ui file {| topics := topics t;
                                                  checkbox_vars := [] |}))))
      <-> In k (flatten (topics t)))
  /\ fst (refresh_ui (Loaded (as_loaded record)) t) = [DebugProgressLoaded].
Proof.
  split; [apply keys_refresh_ui|]. split.
  - rewrite keys_refresh_ui. simpl. tauto.
  - unfold refresh_ui, load_progress.
    set (vars := fold_left _ (topics t) (checkbox_vars t)).
    pose proof (apply_items_flags record vars) as H.
    destruct (apply_items (as_loaded record) vars) as [ok vars'].
    simpl in H. subst ok. reflexivity.
Qed.

(** *** Saving *)

Lemma flush_sent (f : text_file) : sent (snd (flush f)) = sent f.
Proof.
  unfold flush, sent. destruct (room f) as [r|]; [|simpl; rewrite app_nil_r; reflexivity].
  destruct (List.length (buffered f) <=? r)%nat; simpl.
  - rewrite app_nil_r. reflexivity.
  - rewrite <- app_assoc, firstn_skipn. reflexivity.
Qed.

Lemma write_sent (size : Z) (chunk : pystr) (f : text_file) :
  sent (snd (write size chunk f)) = sent f ++ chunk.
Proof.
  unfold write.
  destruct (size <? _); [rewrite flush_sent|]; unfold sent; simpl; apply app_assoc.
Qed.

(** Without a failure in store every write succeeds and nothing is lost. *)
Lemma write_chunks_unlimited (size : Z) (chunks : list pystr) (f : text_file) :
  room f = None ->
  exists f', write_chunks size chunks f = (true, f')
             /\ room f' = None /\ sent f' = sent f ++ List.concat chunks.
Proof.
  revert f. induction chunks as [|chunk chunks IH]; intros f R; cbn [write_chunks].
  - exists f. rewrite app_nil_r. auto.
  - assert (W : exists f1, write size chunk f = (true, f1) /\ room f1 = None).
    { unfold write. destruct (size <? _).
      - unfold flush. cbn [room]. rewrite R. eexists. split; reflexivity.
      - eexists. split; [reflexivity | exact R]. }
    destruct W as [f1 [W R1]]. pose proof (write_sent size chunk f) as S1.
    rewrite W in *. cbn [snd] in S1.
    destruct (IH f1 R1) as [f' [E [R' S']]]. exists f'.
    split; [exact E|]. split; [exact R'|].
    rewrite S', S1. cbn [List.concat]. rewrite app_assoc. reflexivity.
Qed.

Lemma close_unlimited (f : text_file) : room f = None -> close f = (true, sent f).
Proof. intros R. unfold close, flush. rewrite R. reflexivity. Qed.

Lemma save_without_fault (file : disk) (t : StudyTracker) :
  save_progress None file t = ([InfoProgressSaved], Some (json_text (progress_of t))).
Proof.
  unfold save_progress. cbn [one_less].
  destruct (write_chunks_unlimited BUFFER_SIZE (json_chunks (progress_of t))
              {| on_disk := []; buffered := []; room := None |} eq_refl)
    as [f' [E [R S]]].
  rewrite E, (close_unlimited f' R), S. reflexivity.
Qed.

(** When the device takes [n] characters, emptying the buffer leaves in the
    file the first [n] characters of what was written. *)
Lemma flush_takes (n : nat) (f : text_file) :
  takes n f ->
  takes n (snd (flush f))
  /\ on_disk (snd (flush f)) = firstn n (sent f)
  /\ (fst (flush f) = false -> (n <= List.length (sent f))%nat).
Proof.
  intros [r [R N]]. unfold flush, sent. rewrite R.
  destruct (List.length (buffered f) <=? r)%nat eqn:L.
  - apply Nat.leb_le in L. cbn [fst snd on_disk]. split; [|split; [|discriminate]].
    + eexists. split; [reflexivity|]. cbn [on_disk]. rewrite length_app. lia.
    + symmetry. apply firstn_all2. rewrite length_app. lia.
  - apply Nat.leb_gt in L. cbn [fst snd on_disk]. split; [|split].
    + exists O. split; [reflexivity|]. cbn [on_disk].
      rewrite length_app, length_firstn. lia.
    + rewrite firstn_app.
      assert (E : firstn n (on_disk f) = on_disk f) by (apply firstn_all2; lia).
      rewrite E. replace (n - List.length (on_disk f))%nat with r by lia. reflexivity.
    + intros _. rewrite length_app. lia.
Qed.

Lemma write_takes (n : nat) (size : Z) (chunk : pystr) (f : text_file) :
  takes n f ->
  takes n (snd (write size chunk f))
  /\ (fst (write size chunk f) = false
      -> (n <= List.length (sent (snd (write size chunk f))))%nat).
Proof.
  intros T. unfold write.
  set (f' := {| on_disk := on_disk f; buffered := buffered f ++ chunk; room := room f |}).
  assert (T' : takes n f') by exact T.
  destruct (size <? _).
  - destruct (flush_takes n f' T') as [A [_ C]]. split; [exact A|].
    rewrite flush_sent. exact C.
  - split; [exact T' | discriminate].
Qed.

Lemma write_chunks_takes (n : nat) (size : Z) (chunks : list pystr) (f : text_file) :
  takes n f ->
  takes n (snd (write_chunks size chunks f))
  /\ exists rest,
       sent f ++ List.concat chunks = sent (snd (write_chunks size chunks f)) ++ rest
       /\ (rest = [] \/ (n <= List.length (sent (snd (write_chunks size chunks f))))%nat).
Proof.
  revert f. induction chunks as [|chunk chunks IH]; intros f T; cbn [write_chunks].
  - split; [exact T|]. exists []. auto.
  - destruct (write_takes n size chunk f T) as [T1 F1].
    pose proof (write_sent size chunk f) as S1.
    destruct (write size chunk f) as [[|] f1]; cbn [fst snd] in *.
    + destruct (IH f1 T1) as [T' [rest [E C]]]. split; [exact T'|].
      exists rest. split; [|exact C].
      cbn [List.concat]. rewrite app_assoc, <- S1. exact E.
    + split; [exact T1|]. exists (List.concat chunks). split.
      * cbn [List.concat]. rewrite app_assoc, <- S1. reflexivity.
      * right. apply F1. reflexivity.
Qed.

Lemma close_takes (n : nat) (f : text_file) :
  takes n f -> close f = (false, firstn n (sent f)).
Proof.
  intros T. destruct (flush_takes n f T) as [[r [R _]] [D _]].
  unfold close. destruct (flush f) as [flushed f']. cbn [snd] in *.
  rewrite R, D, andb_false_r. reflexivity.
Qed.

(** A save that opens the file and then meets a failure leaves in the file
    the characters that reached it, whatever the size of the buffer. *)
Lemma save_with_fault (n : nat) (file : disk) (t : StudyTracker) :
  save_progress (Some (S n)) file t
  = ([ErrorSaveProgress], Some (firstn n (json_text (progress_of t)))).
Proof.
  unfold save_progress. cbn [one_less Nat.pred].
  set (f := {| on_disk := []; buffered := []; room := Some n |}).
  assert (T : takes n f) by (exists n; split; reflexivity).
  destruct (write_chunks_takes n BUFFER_SIZE (json_chunks (progress_of t)) f T)
    as [T' [rest [E C]]].
  destruct (write_chunks BUFFER_SIZE (json_chunks (progress_of t)) f) as [written f'].
  cbn [snd] in *. rewrite (close_takes n f' T'), andb_false_r.
  change (sent f) with (@nil Z) in E. cbn [app] in E. fold (json_text (progress_of t)) in E.
  rewrite E. destruct C as [->|C]; [rewrite app_nil_r; reflexivity|].
  rewrite firstn_app. replace (n - List.length (sent f'))%nat with O by lia.
  rewrite app_nil_r. reflexivity.
Qed.

Lemma proper_prefix (n : nat) (text : pystr) :
  if (n <? List.length text)%nat
  then exists rest, rest <> [] /\ text = firstn n text ++ rest
  else firstn n text = text.
Proof.
  destruct (n <? List.length text)%nat eqn:L.
  - apply Nat.ltb_lt in L. exists (skipn n text). split.
    + intros E. pose proof (length_skipn n text) as K. rewrite E in K. simpl in K. lia.
    + symmetry. apply firstn_skipn.
  - apply Nat.ltb_ge in L. apply firstn_all2, L.
Qed.

(** C7, as the specification states it, fails: when the file raises after
    one character has reached it, it holds neither the whole record nor what
    it held before. *)
Lemma save_not_atomic : ~ save_is_atomic.
Proof.
  intros H. specialize (H (Some 2%nat) (Some (lit "{}")) two_flags).
  vm_compute in H. destruct H as [H|[_ H]]; discriminate.
Qed.

(** C7, amended: a save in which no file operation raises leaves the file
    holding exactly the serialized record and reports success.  A save whose
    [open] raises leaves the prior content as it was and reports the failure.
    A save that opens the file and fails after [n] characters have reached it
    reports the failure and leaves in the file exactly the first [n]
    characters of the serialized record, the prior content gone: a proper
    prefix when [n] is less than the length of the record, the whole record
    when only the close fails. *)
Theorem save_outcomes (n : nat) (file : disk) (t : StudyTracker) :
  save_progress None file t = ([InfoProgressSaved], Some (json_text (progress_of t)))
  /\ save_progress (Some 0%nat) file t = ([ErrorSaveProgress], file)
  /\ save_progress (Some (S n)) file t
     = ([ErrorSaveProgress], Some (firstn n (json_text (progress_of t))))
  /\ (if (n <? List.length (json_text (progress_of t)))%nat
      then exists rest,
             rest <> []
             /\ json_text (progress_of t) = firstn n (json_text (progress_of t)) ++ rest
      else firstn n (json_text (progress_of t)) = json_text (progress_of t)).
Proof.
  split; [apply save_without_fault|]. split; [reflexivity|].
  split; [apply save_with_fault | apply proper_prefix].
Qed.

Lemma flag_in_item_chunks (first : bool) (progress : list (pystr * bool))
      (k : pystr) (flag : bool) :
  In (k, flag) progress ->
  exists before after,
    List.concat (item_chunks first progress)
    = before ++ encode_basestring_ascii k ++ lit ": "
      ++ (if flag then lit "true" else lit "false") ++ after.
Proof.
  revert first. induction progress as [|[key value] rest IH]; intros first; [intros []|].
  intros [E|H]; cbn [item_chunks]; rewrite !concat_app; cbn [List.concat].
  - inversion E; subst key value.
    exists (List.concat (if first then [] else [lit ", "])),
           (List.concat (item_chunks false rest)).
    rewrite app_nil_r, <- !app_assoc. reflexivity.
  - destruct (IH false H) as [before [after E]]. rewrite E.
    exists (List.concat (if first then [] else [lit ", "])
            ++ encode_basestring_ascii key ++ lit ": "
            ++ (if value then lit "true" else lit "false") ++ before), after.
    rewrite app_nil_r, <- !app_assoc. reflexivity.
Qed.

Lemma flag_in_json_text (progress : list (pystr * bool)) (k : pystr) (flag : bool) :
  In (k, flag) progress ->
  exists before after,
    json_text progress
    = before ++ encode_basestring_ascii k ++ lit ": "
      ++ (if flag then lit "true" else lit "false") ++ after.
Proof.
  intros H. unfold json_text, json_chunks. destruct progress as [|kv rest]; [destruct H|].
  destruct (flag_in_item_chunks true (kv :: rest) k flag H) as [before [after E]].
  rewrite !concat_app, E. exists (List.concat [lit "{"] ++ before), (after ++ List.concat [lit "}"]).
  rewrite <- !app_assoc. reflexivity.
Qed.

(** C9, as stated, fails for a call whose save cannot open the file: the
    file keeps what it held. *)
Lemma check_not_always_overwriting : ~ check_always_overwrites.
Proof.
  intros H. specialize (H (Some 0%nat) (Some (lit "{}")) two_flags).
  vm_compute in H. discriminate.
Qed.

(** C9, amended: [check_progress] shows its report and then does to
    [progress.json] exactly what [save_progress] does, whatever fails.  When
    nothing fails the file is overwritten with the serialization of the flags
    the registry holds at that moment, in which every registered key stands
    with its flag.  When [open] fails the file is left as it was, and when the
    file fails after [n] characters it holds the first [n] characters of that
    serialization; the failure is reported after the report. *)
Theorem check_progress_saves (fault : option nat) (n : nat) (file : disk)
        (t : StudyTracker) :
  snd (check_progress fault file t) = snd (save_progress fault file t)
  /\ (exists message,
        fst (check_progress fault file t) = message :: fst (save_progress fault file t))
  /\ (exists message,
        check_progress None file t
        = ([message; InfoProgressSaved], Some (json_text (checkbox_vars t))))
  /\ (forall k flag,
        In (k, flag) (checkbox_vars t) ->
        exists before after,
          json_text (checkbox_vars t)
          = before ++ encode_basestring_ascii k ++ lit ": "
            ++ (if flag then lit "true" else lit "false") ++ after)
  /\ (exists message,
        check_progress (Some 0%nat) file t = ([message; ErrorSaveProgress], file))
  /\ (exists message,
        check_progress (Some (S n)) file t
        = ([message; ErrorSaveProgress], Some (firstn n (json_text (checkbox_vars t))))).
Proof.
  assert (G : forall f,
             exists message,
               check_progress f file t
               = (message :: fst (save_progress f file t), snd (save_progress f file t))).
  { intros f. unfold check_progress. destruct (save_progress f file t).
    eexists. reflexivity. }
  split; [destruct (G fault) as [m E]; rewrite E; reflexivity|].
  split; [destruct (G fault) as [m E]; exists m; rewrite E; reflexivity|].
  split; [destruct (G None) as [m E]; exists m; rewrite E, save_without_fault; reflexivity|].
  split; [intros k flag H; apply flag_in_json_text, H|].
  split; [destruct (G (Some 0%nat)) as [m E]; exists m; rewrite E; reflexivity|].
  destruct (G (Some (S n))) as [m E]. exists m. rewrite E, save_with_fault. reflexivity.
Qed.

(** *** The registry across document loads *)

Lemma keys_load_pdf (choice : option pdf) (file : stored) (t : StudyTracker) (k : pystr) :
  In k (Dict.keys (checkbox_vars t)) ->
  In k (Dict.keys (checkbox_vars (snd (load_pdf choice file t)))).
Proof.
  intros H. unfold load_pdf. destruct choice as [document|]; [|exact H].
  destruct (extract_topics_from_pdf document) as [ev extracted].
  destruct (negb (is_empty_dict extracted)); [|exact H].
  pose proof (keys_refresh_ui file
                {| topics := extracted; checkbox_vars := checkbox_vars t |} k) as R.
  destruct (refresh_ui file {| topics := extracted; checkbox_vars := checkbox_vars t |}).
  simpl in *. apply R. left. exact H.
Qed.

Lemma keys_session (loads : list (option pdf * stored)) (t : StudyTracker) (k : pystr) :
  In k (Dict.keys (checkbox_vars t)) ->
  In k (Dict.keys (checkbox_vars (session loads t))).
Proof.
  unfold session. revert t. induction loads as [|[choice file] loads IH]; intros t H;
    simpl; [exact H|].
  apply IH, keys_load_pdf, H.
Qed.

Lemma key_in_item_chunks (first : bool) (progress : list (pystr * bool)) (k : pystr) :
  In k (Dict.keys progress) -> In (encode_basestring_ascii k) (item_chunks first progress).
Proof.
  revert first. induction progress as [|[key value] rest IH]; intros first; simpl; [tauto|].
  intros [H|H]; apply in_or_app; right.
  - subst key. left. reflexivity.
  - right. right. right. apply IH, H.
Qed.

Lemma key_in_json_chunks (progress : list (pystr * bool)) (k : pystr) :
  In k (Dict.keys progress) -> In (encode_basestring_ascii k) (json_chunks progress).
Proof.
  destruct progress as [|kv rest]; [intros []|]. intros H.
  unfold json_chunks. apply in_or_app. right. apply in_or_app. left.
  apply key_in_item_chunks, H.
Qed.

(** C10: a key of the registry stays in it through [refresh_ui] and through
    any run of document loads, whatever the documents and whatever
    [progress.json] holds; it is then a key of the dictionary that
    [save_progress] builds, its encoding is among the chunks written, and a
    save without failure writes exactly that dictionary. *)
Theorem registry_only_grows (k : pystr) (t : StudyTracker)
        (loads : list (option pdf * stored)) (file : stored) (on_disk : disk) :
  In k (Dict.keys (checkbox_vars t)) ->
  In k (Dict.keys (checkbox_vars (snd (refresh_ui file t))))
  /\ In k (Dict.keys (checkbox_vars (session loads t)))
  /\ In k (Dict.keys (progress_of (session loads t)))
  /\ In (encode_basestring_ascii k) (json_chunks (progress_of (session loads t)))
  /\ snd (save_progress None on_disk (session loads t))
     = Some (json_text (progress_of (session loads t))).
Proof.
  intros H. pose proof (keys_session loads t k H) as S.
  split; [apply keys_refresh_ui; left; exact H|].
  split; [exact S|]. split; [exact S|].
  split; [apply key_in_json_chunks; exact S|].
  rewrite save_without_fault. reflexivity.
Qed.

Lemma registry_only_grows_witness :
  In (lit "Old")
     (Dict.keys (checkbox_vars (session [(Some (Pages [Some (lit "Plan: x"); None]), NoFile)]
                                        second_document)))
  /\ In (encode_basestring_ascii (lit "Old"))
        (json_chunks (progress_of
                        (session [(Some (Pages [Some (lit "Plan: x"); None]), NoFile)]
                                 second_document))).
Proof.
  assert (H : In (lit "Old") (Dict.keys (checkbox_vars second_document)))
    by (left; reflexivity).
  pose proof (registry_only_grows (lit "Old") second_document
                [(Some (Pages [Some (lit "Plan: x"); None]), NoFile)] NoFile None H)
    as [_ [S [_ [J _]]]].
  split; [exact S | exact J].
Defined.

(** * Further properties of the code *)

(** ** Dictionary laws *)

Lemma eqb_refl (s : pystr) : Str.eqb s s = true.
Proof. apply eqb_eq. reflexivity. Qed.

Lemma eqb_neq (s t : pystr) : Str.eqb s t = false <-> s <> t.
Proof.
  split.
  - intros E H. apply eqb_eq in H. congruence.
  - intros H. destruct (Str.eqb s t) eqn:E; [|reflexivity].
    apply eqb_eq in E. contradiction.
Qed.

Lemma eqb_sym (s t : pystr) : Str.eqb s t = Str.eqb t s.
Proof.
  destruct (Str.eqb s t) eqn:E.
  - apply eqb_eq in E. subst. symmetry. apply eqb_refl.
  - apply eqb_neq in E. symmetry. apply eqb_neq. congruence.
Qed.

Lemma get_set_same {V} (k : pystr) (v : V) (d : Dict.dict V) :
  Dict.get k (Dict.set k v d) = Some v.
Proof.
  induction d as [|[k' v'] d IH]; simpl.
  - rewrite eqb_refl. reflexivity.
  - destruct (Str.eqb k' k) eqn:E; simpl; rewrite E; [reflexivity | exact IH].
Qed.

Lemma get_set_other {V} (k k0 : pystr) (v : V) (d : Dict.dict V) :
  k0 <> k -> Dict.get k0 (Dict.set k v d) = Dict.get k0 d.
Proof.
  intros N. induction d as [|[k' v'] d IH]; simpl.
  - assert (E : Str.eqb k k0 = false) by (apply eqb_neq; congruence).
    rewrite E. reflexivity.
  - destruct (Str.eqb k' k) eqn:E; simpl.
    + apply eqb_eq in E. subst k'.
      assert (E : Str.eqb k k0 = false) by (apply eqb_neq; congruence).
      rewrite E. reflexivity.
    + rewrite IH. reflexivity.
Qed.

Lemma get_update_same {V} (k : pystr) (f : V -> V) (d : Dict.dict V) :
  Dict.get k (Dict.update k f d) = option_map f (Dict.get k d).
Proof.
  induction d as [|[k' v'] d IH]; simpl; [reflexivity|].
  destruct (Str.eqb k' k) eqn:E; simpl; rewrite E; [reflexivity | exact IH].
Qed.

Lemma get_update_other {V} (k k0 : pystr) (f : V -> V) (d : Dict.dict V) :
  k0 <> k -> Dict.get k0 (Dict.update k f d) = Dict.get k0 d.
Proof.
  intros N. induction d as [|[k' v'] d IH]; simpl; [reflexivity|].
  destruct (Str.eqb k' k) eqn:E; simpl.
  - apply eqb_eq in E. subst k'.
    assert (E : Str.eqb k k0 = false) by (apply eqb_neq; congruence).
    rewrite E. reflexivity.
  - rewrite IH. reflexivity.
Qed.

Lemma mem_in_keys {V} (k : pystr) (d : Dict.dict V) :
  Dict.mem k d = true <-> In k (Dict.keys d).
Proof.
  unfold Dict.mem. induction d as [|[k' v'] d IH]; simpl.
  - split; [discriminate | tauto].
  - destruct (Str.eqb k' k) eqn:E.
    + apply eqb_eq in E. split; auto.
    + apply eqb_neq in E. rewrite IH. split; [auto | intros [H|H]; [contradiction | exact H]].
Qed.

Lemma in_dict_set_entry {V} (k k0 : pystr) (v v0 : V) (d : Dict.dict V) :
  In (k0, v0) (Dict.set k v d) -> In (k0, v0) d \/ (k0 = k /\ v0 = v).
Proof.
  induction d as [|[k' v'] d IH]; simpl.
  - intros [H|[]]. right. split; congruence.
  - destruct (Str.eqb k' k) eqn:E; simpl; intros [H|H]; auto.
    + apply eqb_eq in E. right. split; congruence.
    + destruct (IH H); auto.
Qed.

(** ** Reading the document *)

Lemma document_text_from (pages : list (option pystr)) (text : pystr) :
  fold_left (fun text page =>
               match page with Some page_text => text ++ page_text | None => text end)
            pages text
  = text ++ List.concat (page_texts pages).
Proof.
  revert text. induction pages as [|[page_text|] pages IH]; intros text; simpl.
  - rewrite app_nil_r. reflexivity.
  - rewrite IH, app_assoc. reflexivity.
  - apply IH.
Qed.

Lemma document_text_concat (pages : list (option pystr)) :
  document_text pages = List.concat (page_texts pages).
Proof. unfold document_text. apply document_text_from. Qed.


Lemma split_not_nil (sep : Z) (s : pystr) : Str.split sep s <> [].
Proof.
  destruct s as [|c s]; simpl; [discriminate|].
  destruct (c =? sep); [discriminate|]. destruct (Str.split sep s); discriminate.
Qed.

Lemma join_cons (sep : Z) (line : pystr) (rest : list pystr) :
  rest <> [] -> join sep (line :: rest) = line ++ sep :: join sep rest.
Proof. destruct rest; [congruence | reflexivity]. Qed.

Lemma join_split (sep : Z) (s : pystr) : join sep (Str.split sep s) = s.
Proof.
  induction s as [|c s IH]; [reflexivity|]. simpl.
  destruct (c =? sep) eqn:E.
  - apply Z.eqb_eq in E. subst c.
    rewrite join_cons by apply split_not_nil. rewrite IH. reflexivity.
  - pose proof (split_not_nil sep s) as N.
    destruct (Str.split sep s) as [|l ls]; [congruence|].
    destruct ls as [|l' ls]; simpl in *; congruence.
Qed.

Lemma split_lines_without_sep (sep : Z) (s : pystr) :
  Forall (fun line => ~ In sep line) (Str.split sep s).
Proof.
  induction s as [|c s IH]; simpl; [constructor; [tauto | constructor]|].
  destruct (c =? sep) eqn:E.
  - constructor; [tauto | exact IH].
  - apply Z.eqb_neq in E. destruct (Str.split sep s) as [|l ls]; simpl.
    + constructor; [|constructor]. intros [H|[]]. congruence.
    + inversion IH as [|? ? Hl Hls]; subst. constructor; [|exact Hls].
      intros [H|H]; [congruence | contradiction].
Qed.

(** X2: the lines the loops run over lose nothing of the text: there is at
    least one line, no line holds a newline, and the lines joined by newlines
    are the text of the document again. *)
Theorem document_lines_rejoin (pages : list (option pystr)) :
  document_lines pages <> []
  /\ Forall (fun line => ~ In newline line) (document_lines pages)
  /\ join newline (document_lines pages) = List.concat (page_texts pages).
Proof.
  unfold document_lines. split; [apply split_not_nil|].
  split; [apply split_lines_without_sep|].
  rewrite join_split. apply document_text_concat.
Qed.

(** ** Lines the extraction ignores *)

Lemma fold_left_skip {A B} (f : A -> B -> A) (keep : B -> bool) (l : list B) (a : A) :
  (forall a' x, keep x = false -> f a' x = a') ->
  fold_left f (List.filter keep l) a = fold_left f l a.
Proof.
  intros H. revert a. induction l as [|x l IH]; intros a; simpl; [reflexivity|].
  destruct (keep x) eqn:K; simpl; [apply IH|]. rewrite (H a x K). apply IH.
Qed.

Lemma not_blank_false (line : pystr) : not_blank line = false -> strip line = [].
Proof. unfold not_blank. destruct (strip line); [reflexivity | discriminate]. Qed.

Lemma trimmed_not_blank (lines : list pystr) :
  List.filter truthy (List.map strip (List.filter not_blank lines))
  = List.filter truthy (List.map strip lines).
Proof.
  induction lines as [|l lines IH]; simpl; [reflexivity|].
  unfold not_blank at 1. destruct (truthy (strip l)) eqn:T; simpl; rewrite ?T, IH; reflexivity.
Qed.

(** X3: blank lines play no part.  Dropping every line that is empty after
    trimming changes neither the events nor the map, in any of the three
    tiers. *)
Theorem blank_lines_ignored (lines : list pystr) :
  extract_from_lines (List.filter not_blank lines) = extract_from_lines lines.
Proof.
  unfold extract_from_lines, primary_loop, _clean_and_validate_topics, alternative_loop,
    first_ten.
  rewrite trimmed_not_blank.
  rewrite (fold_left_skip primary_step not_blank)
    by (intros st x K; apply primary_step_blank, not_blank_false, K).
  rewrite (fold_left_skip alternative_step not_blank)
    by (intros st x K; apply alternative_step_blank, not_blank_false, K).
  reflexivity.
Qed.

Lemma primary_step_without_subject (line : pystr) :
  is_subject (strip line) = false -> primary_step (None, []) line = (None, []).
Proof.
  intros H. unfold primary_step. rewrite H.
  destruct (truthy (strip line)); reflexivity.
Qed.

(** X4: subtopics need a subject.  When no line matches a subject pattern,
    the primary loop ends with no current subject and an empty dictionary,
    however many lines look like subtopics, and the second pass runs. *)
Theorem no_subject_no_topics (lines : list pystr) :
  (forall line, In line lines -> is_subject (strip line) = false) ->
  primary_loop lines = (None, []) /\ tier1 lines = [] /\ tier2_runs lines.
Proof.
  intros H.
  assert (E : primary_loop lines = (None, [])).
  { unfold primary_loop. apply fold_left_fixed.
    intros x Hx. apply primary_step_without_subject, H, Hx. }
  assert (T : tier1 lines = []) by (unfold tier1; rewrite E; reflexivity).
  split; [exact E|]. split; [exact T|]. apply tier2_runs_iff, T.
Qed.

Lemma no_subject_no_topics_witness :
  primary_loop [lit "- one"; lit "  Two"; lit "a) three"] = (None, [])
  /\ tier1 [lit "- one"; lit "  Two"; lit "a) three"] = []
  /\ tier2_runs [lit "- one"; lit "  Two"; lit "a) three"].
Proof.
  apply (no_subject_no_topics [lit "- one"; lit "  Two"; lit "a) three"]).
  intros line Hin. destruct Hin as [<- | [<- | [<- | []]]]; vm_compute; reflexivity.
Defined.

(** ** What the callers can rely on *)

Lemma extraction_never_empty (document : pdf) :
  snd (extract_topics_from_pdf document) <> [].
Proof.
  destruct document; simpl; try discriminate. apply clean_and_validate_not_nil.
Qed.

Lemma extraction_events (document : pdf) (e : event) :
  In e (fst (extract_topics_from_pdf document)) ->
  e = DebugAlternativeParsing \/ e = WarningNoTopics
  \/ e = ErrorReadPdf \/ e = ErrorOpenFile.
Proof.
  destruct document as [| |pages]; simpl.
  - intros [<-|[]]; auto.
  - intros [<-|[]]; auto.
  - unfold extract_from_lines. rewrite events_of_clean.
    destruct (is_empty_dict _); [destruct (is_empty_dict _)|]; simpl; intuition auto.
Qed.

Lemma refresh_ui_events (file : stored) (t : StudyTracker) (e : event) :
  In e (fst (refresh_ui file t)) -> e = DebugProgressLoaded \/ e = ErrorLoadProgress.
Proof.
  unfold refresh_ui.
  set (vars := fold_left _ (topics t) (checkbox_vars t)).
  destruct file as [| |progress]; simpl.
  - tauto.
  - intros [<-|[]]; auto.
  - destruct (apply_items progress vars) as [[|] vars']; simpl; intros [<-|[]]; auto.
Qed.

(** X5: the branch of [load_pdf] that reports that no topics could be
    extracted is never taken: the extraction returns a map with at least one
    key for every document, also when the file does not open or cannot be
    read, so [load_pdf] always goes on to [refresh_ui]. *)
Theorem no_topics_branch_dead (choice : option pdf) (file : stored) (t : StudyTracker) :
  ~ In ErrorNoTopicsExtracted (fst (load_pdf choice file t))
  /\ (forall document, snd (extract_topics_from_pdf document) <> []).
Proof.
  split; [|apply extraction_never_empty].
  unfold load_pdf. destruct choice as [document|]; [|simpl; tauto].
  pose proof (extraction_never_empty document) as N.
  pose proof (extraction_events document) as EV.
  destruct (extract_topics_from_pdf document) as [ev extracted]. simpl in N, EV.
  destruct extracted as [|kv extracted]; [congruence|]. cbn [is_empty_dict negb].
  pose proof (refresh_ui_events file
                {| topics := kv :: extracted; checkbox_vars := checkbox_vars t |}) as RV.
  destruct (refresh_ui file {| topics := kv :: extracted; checkbox_vars := checkbox_vars t |})
    as [ev' t'']. simpl in *.
  intros H. apply in_app_or in H. destruct H as [H|H].
  - apply EV in H. intuition discriminate.
  - apply RV in H. intuition discriminate.
Qed.

(** ** The subjects of the primary pass *)

Lemma keys_set_add {V} (k : pystr) (v : V) (d : Dict.dict V) :
  Dict.keys (Dict.set k v d) = add_key (Dict.keys d) k.
Proof.
  unfold add_key. induction d as [|[k' v'] d IH]; simpl; [reflexivity|].
  destruct (Str.eqb k' k) eqn:E; simpl; [reflexivity|].
  rewrite IH. destruct (existsb (fun k'0 => Str.eqb k'0 k) (Dict.keys d)); reflexivity.
Qed.

Lemma add_key_in (ks : list pystr) (k x : pystr) :
  In x (add_key ks k) <-> In x ks \/ x = k.
Proof.
  unfold add_key. destruct (existsb (fun k' => Str.eqb k' k) ks) eqn:E.
  - apply existsb_exists in E. destruct E as [k' [Hin E]]. apply eqb_eq in E. subst k'.
    split; [auto | intros [H|H]; subst; auto].
  - rewrite in_app_iff. simpl. split; intros [H|H]; auto.
    + destruct H as [H|[]]; auto.
Qed.

Lemma add_key_nodup (ks : list pystr) (k : pystr) : NoDup ks -> NoDup (add_key ks k).
Proof.
  intros N. unfold add_key. destruct (existsb (fun k' => Str.eqb k' k) ks) eqn:E; [exact N|].
  apply NoDup_app; [exact N | constructor; [tauto | constructor] |].
  intros x Hx [Hk|[]]. subst x.
  assert (T : existsb (fun k' => Str.eqb k' k) ks = true)
    by (apply existsb_exists; exists k; split; [exact Hx | apply eqb_refl]).
  congruence.
Qed.

Lemma fold_add_key_nodup (l ks : list pystr) : NoDup ks -> NoDup (fold_left add_key l ks).
Proof.
  revert ks. induction l as [|k l IH]; intros ks N; simpl; [exact N|].
  apply IH, add_key_nodup, N.
Qed.

Lemma primary_step_keys (st : cursor) (line : pystr) :
  Dict.keys (snd (primary_step st line))
  = if truthy (strip line) && is_subject (strip line)
    then add_key (Dict.keys (snd st)) (strip line)
    else Dict.keys (snd st).
Proof.
  destruct st as [current_subject topics]. unfold primary_step.
  destruct (truthy (strip line)); cbn [negb andb]; [|reflexivity].
  destruct (is_subject (strip line)); [apply keys_set_add|].
  destruct current_subject as [subject|]; [|reflexivity].
  destruct (is_subtopic line || Str.contains two_spaces line); [|reflexivity].
  destruct (_ && _); [|reflexivity]. apply keys_update.
Qed.

Lemma primary_fold_keys (lines : list pystr) (st : cursor) :
  Dict.keys (snd (fold_left primary_step lines st))
  = fold_left add_key (subject_lines lines) (Dict.keys (snd st)).
Proof.
  revert st. induction lines as [|line lines IH]; intros st; [reflexivity|].
  cbn [fold_left]. rewrite IH, primary_step_keys. unfold subject_lines. cbn [List.map List.filter].
  destruct (truthy (strip line) && is_subject (strip line)); reflexivity.
Qed.

Lemma nodup_keys_filter {V} (keep : pystr * V -> bool) (d : Dict.dict V) :
  NoDup (Dict.keys d) -> NoDup (Dict.keys (List.filter keep d)).
Proof.
  unfold Dict.keys. induction d as [|kv d IH]; simpl; intros N; [constructor|].
  inversion N as [|? ? Hn N']; subst.
  destruct (keep kv); simpl; [|apply IH, N'].
  constructor; [|apply IH, N'].
  intros H. apply Hn. apply in_map_iff in H. destruct H as [x [E Hx]].
  apply filter_In in Hx. apply in_map_iff. exists x. tauto.
Qed.

(** X6: the subjects of the dictionary the primary loop builds are the
    distinct trimmed lines that match a subject pattern, in the order of
    their first appearance; a subject line that comes again keeps its place.
    No subject is listed twice, before or after the empty ones are removed. *)
Theorem primary_subjects_in_order (lines : list pystr) :
  Dict.keys (snd (primary_loop lines)) = first_occurrences (subject_lines lines)
  /\ NoDup (Dict.keys (snd (primary_loop lines)))
  /\ NoDup (Dict.keys (tier1 lines)).
Proof.
  assert (E : Dict.keys (snd (primary_loop lines)) = first_occurrences (subject_lines lines))
    by apply primary_fold_keys.
  assert (N : NoDup (Dict.keys (snd (primary_loop lines)))).
  { rewrite E. apply fold_add_key_nodup. constructor. }
  split; [exact E|]. split; [exact N|]. apply nodup_keys_filter, N.
Qed.

Lemma in_first_occurrences (l : list pystr) (ks : list pystr) (x : pystr) :
  In x (fold_left add_key l ks) <-> In x ks \/ In x l.
Proof.
  revert ks. induction l as [|k l IH]; intros ks; simpl; [tauto|].
  rewrite IH, add_key_in. split; intros H; intuition auto.
Qed.

(** X7: every subject of the primary-pass map is the trimmed text of a line
    of the input, matches one of the subject patterns, and has at least one
    subtopic. *)
Theorem primary_subject_origin (lines : list pystr) (subject : pystr) (items : list pystr) :
  In (subject, items) (tier1 lines) ->
  items <> [] /\ is_subject subject = true
  /\ exists line, In line lines /\ subject = strip line.
Proof.
  intros H. unfold tier1, remove_empty in H. apply filter_In in H.
  destruct H as [H K]. split; [destruct items; [discriminate | discriminate]|].
  assert (Hk : In subject (Dict.keys (snd (primary_loop lines))))
    by (apply in_map_iff; exists (subject, items); auto).
  unfold primary_loop in Hk. rewrite primary_fold_keys in Hk.
  apply in_first_occurrences in Hk. destruct Hk as [[]|Hk].
  unfold subject_lines in Hk. apply filter_In in Hk. destruct Hk as [Hk T].
  apply andb_true_iff in T. destruct T as [_ T]. split; [exact T|].
  apply in_map_iff in Hk. destruct Hk as [line [E Hin]]. exists line. auto.
Qed.

Lemma primary_subject_origin_witness :
  [lit "a) Integration"] <> [] /\ is_subject (lit "Module II: [8L]") = true
  /\ exists line, In line scenario1 /\ lit "Module II: [8L]" = strip line.
Proof.
  apply (primary_subject_origin scenario1 (lit "Module II: [8L]") [lit "a) Integration"]).
  vm_compute. right. left. reflexivity.
Defined.

(** ** The second pass *)

Lemma alternative_step_verbatim (lines : list pystr) (st : cursor) (line : pystr) :
  In line lines -> taken_verbatim lines st -> taken_verbatim lines (alternative_step st line).
Proof.
  intros Hin Inv. destruct st as [current_subject topics]. unfold alternative_step.
  destruct (truthy (strip line)) eqn:T; cbn [negb]; [|exact Inv].
  destruct (is_loose_subject (strip line)) eqn:L.
  - intros subject items H. cbn [snd] in H. apply in_dict_set_entry in H.
    destruct H as [H|[-> ->]]; [exact (Inv subject items H)|].
    split; [exists line; auto|]. split; [exact L|]. intros s [].
  - destruct (truthy_subject current_subject && true); [|exact Inv].
    destruct current_subject as [subject0|]; [|exact Inv].
    intros subject items H. cbn [snd] in H. apply in_dict_update in H.
    destruct H as [H|[items' [H ->]]]; [exact (Inv subject items H)|].
    destruct (Inv subject items' H) as [I1 [I2 I3]].
    split; [exact I1|]. split; [exact I2|].
    intros s Hs. apply in_app_or in Hs. destruct Hs as [Hs|[<-|[]]]; [apply I3, Hs|].
    split; [intros E; rewrite E in T; discriminate|].
    split; [exact L|]. exists line. auto.
Qed.

(** X8: what the second pass returns is taken from the input as it is:
    every subject is the trimmed text of a line longer than three characters
    that passes the loose test, and every subtopic is the trimmed text of a
    non-blank line that does not pass it, with no marker removed. *)
Theorem second_pass_verbatim (lines : list pystr) (subject : pystr) (items : list pystr) :
  In (subject, items) (tier2 lines) ->
  (exists line, In line lines /\ subject = strip line)
  /\ (3 < List.length subject)%nat
  /\ is_loose_subject subject = true
  /\ forall s, In s items ->
       s <> [] /\ is_loose_subject s = false
       /\ exists line, In line lines /\ s = strip line.
Proof.
  intros H.
  assert (Inv : taken_verbatim lines (fold_left alternative_step lines (None, []))).
  { apply fold_left_invariant.
    - intros ? ? [].
    - intros st line Hin I. apply alternative_step_verbatim; assumption. }
  destruct (Inv subject items H) as [I1 [I2 I3]].
  split; [exact I1|]. split; [|split; assumption].
  unfold is_loose_subject in I2. apply andb_true_iff in I2. destruct I2 as [I2 _].
  apply Z.ltb_lt in I2. lia.
Qed.

Lemma second_pass_verbatim_witness :
  (exists line, In line [lit "HEADING"; lit " 1. plain "] /\ lit "HEADING" = strip line)
  /\ (3 < List.length (lit "HEADING"))%nat
  /\ is_loose_subject (lit "HEADING") = true
  /\ forall s, In s [lit "1. plain"] ->
       s <> [] /\ is_loose_subject s = false
       /\ exists line, In line [lit "HEADING"; lit " 1. plain "] /\ s = strip line.
Proof.
  apply (second_pass_verbatim [lit "HEADING"; lit " 1. plain "] (lit "HEADING")
                              [lit "1. plain"]).
  vm_compute. left. reflexivity.
Defined.

(** ** The third tier *)

Lemma first_ten_items (lines : list pystr) (s : pystr) :
  In s (first_ten lines) -> s <> [] /\ exists line, In line lines /\ s = strip line.
Proof.
  unfold first_ten. intros H.
  assert (F : In s (List.filter truthy (List.map strip lines))).
  { rewrite <- (firstn_skipn 10 (List.filter truthy (List.map strip lines))).
    apply in_or_app. left. exact H. }
  apply filter_In in F. destruct F as [F T].
  split; [intros E; rewrite E in T; discriminate|].
  apply in_map_iff in F. destruct F as [line [E Hin]]. exists line. auto.
Qed.

(** X9: when the third tier runs, the map has the single subject
    ["Detected Content"]; its list has at most ten entries, which are the
    first trimmed non-blank lines of the document in their order, so each is
    a non-empty trimmed line of the input. *)
Theorem detected_content_shape (lines : list pystr) :
  tier3_runs lines ->
  exists items,
    snd (extract_from_lines lines) = [(DETECTED_CONTENT, items)]
    /\ (List.length items <= 10)%nat
    /\ items = firstn 10 (List.filter truthy (List.map strip lines))
    /\ forall s, In s items -> s <> [] /\ exists line, In line lines /\ s = strip line.
Proof.
  intros T. apply tier3_runs_iff in T. destruct T as [T1 T2].
  exists (first_ten lines). split.
  - unfold extract_from_lines, _clean_and_validate_topics. fold (tier1 lines).
    rewrite T1. cbn [is_empty_dict]. fold (tier2 lines). rewrite T2. reflexivity.
  - split; [apply firstn_le_length|]. split; [reflexivity|]. apply first_ten_items.
Qed.

Lemma detected_content_shape_witness :
  exists items,
    snd (extract_from_lines [lit "one"; lit ""; lit " two "]) = [(DETECTED_CONTENT, items)]
    /\ (List.length items <= 10)%nat
    /\ items = firstn 10 (List.filter truthy
                            (List.map strip [lit "one"; lit ""; lit " two "]))
    /\ forall s, In s items ->
         s <> [] /\ exists line, In line [lit "one"; lit ""; lit " two "] /\ s = strip line.
Proof.
  apply (detected_content_shape [lit "one"; lit ""; lit " two "]).
  vm_compute. right. left. reflexivity.
Defined.

(** ** The pattern tables *)

Lemma rep_monotone (p : Z -> bool) (k k' : cont) :
  (forall b s, k b s <> None -> k' b s <> None) ->
  forall s lo hi b, rep p lo hi b s k <> None -> rep p lo hi b s k' <> None.
Proof.
  intros K. induction s as [|x s IH]; intros lo hi b; cbn [rep].
  - destruct lo; cbn [stop_here]; auto.
  - destruct (p x && may_repeat hi).
    + specialize (IH (Nat.pred lo) (one_less hi) (x :: b)).
      destruct (rep p (Nat.pred lo) (one_less hi) (x :: b) s k).
      * intros _. destruct (rep p (Nat.pred lo) (one_less hi) (x :: b) s k');
          [discriminate | exfalso; apply IH; [discriminate | reflexivity]].
      * intros H. destruct (rep p (Nat.pred lo) (one_less hi) (x :: b) s k');
          [discriminate|]. destruct lo; cbn [stop_here] in *; auto.
    + destruct lo; cbn [stop_here]; auto.
Qed.

(** A match does not depend on what follows it more than through success:
    a continuation that succeeds more often lets the matcher succeed more
    often. *)
Lemma run_monotone (r : regex) :
  forall (k k' : cont) b s,
    (forall b0 s0, k b0 s0 <> None -> k' b0 s0 <> None) ->
    run r b s k <> None -> run r b s k' <> None.
Proof.
  induction r as [| |c|c lo hi|r1 IH1 r2 IH2|r IH|c|r IH]; intros k k' b s K; cbn [run].
  - apply K.
  - destruct b; [apply K | auto].
  - destruct s as [|x s]; [auto|]. destruct (cset_mem c x); [apply K | auto].
  - apply rep_monotone, K.
  - apply IH1. intros b0 s0. apply IH2, K.
  - apply IH, K.
  - destruct b as [|x b]; [auto|]. destruct (cset_mem c x); [apply K | auto].
  - destruct (run r b s (fun b0 s0 => Some (b0, s0))); [apply K | auto].
Qed.

Lemma re_match_true (r : regex) (s : pystr) :
  re_match r s = true <-> run r [] s accept <> None.
Proof.
  unfold re_match, match_at. destruct (run r [] s accept); split; congruence.
Qed.

Lemma indented_colon_subsumed (line : pystr) :
  re_match (nth 3 SUBTOPIC_PATTERNS Eps) line = true ->
  re_match (nth 4 SUBTOPIC_PATTERNS Eps) line = true.
Proof.
  rewrite !re_match_true. cbn [nth SUBTOPIC_PATTERNS cat fold_right run].
  apply rep_monotone. intros b s. cbn [run].
  destruct s as [|x s]; [auto|]. destruct (cset_mem upper_az x); [|auto].
  intros _. discriminate.
Qed.

(** X10: two of the six subtopic patterns never decide anything.  The fourth
    (an indented capitalised segment ending in a colon) matches only lines the
    fifth (an indented capital) matches too, and the sixth cannot match at the
    start of a line; [is_subtopic] is the test against the other four. *)
Theorem effective_subtopic_patterns (line : pystr) :
  is_subtopic line
  = existsb (fun pattern => re_match pattern line) EFFECTIVE_SUBTOPIC_PATTERNS.
Proof.
  unfold is_subtopic, EFFECTIVE_SUBTOPIC_PATTERNS.
  change SUBTOPIC_PATTERNS
    with (firstn 3 SUBTOPIC_PATTERNS
          ++ [nth 3 SUBTOPIC_PATTERNS Eps; nth 4 SUBTOPIC_PATTERNS Eps; COLON_SEGMENT]) at 1.
  rewrite !existsb_app. f_equal. cbn [existsb].
  rewrite colon_segment_never_matches, !orb_false_r.
  pose proof (indented_colon_subsumed line) as H.
  destruct (re_match (nth 3 SUBTOPIC_PATTERNS Eps) line);
    [rewrite H by reflexivity; reflexivity | reflexivity].
Qed.

Lemma match_head_set (c : cset) (r : regex) (x : Z) (rest : pystr) :
  re_match (Cat Bol (Cat (Set1 c) r)) (x :: rest) = true -> cset_mem c x = true.
Proof.
  rewrite re_match_true. cbn [run]. destruct (cset_mem c x); [reflexivity | congruence].
Qed.

Lemma match_head_word (c : cset) (w r : regex) (x : Z) (rest : pystr) :
  re_match (Cat Bol (Cat (Cat (Set1 c) w) r)) (x :: rest) = true -> cset_mem c x = true.
Proof.
  rewrite re_match_true. cbn [run]. destruct (cset_mem c x); [reflexivity | congruence].
Qed.

Lemma match_head_plus (c : cset) (n : nat) (hi : option nat) (r : regex)
      (x : Z) (rest : pystr) :
  re_match (Cat Bol (Cat (Rep c (S n) hi) r)) (x :: rest) = true -> cset_mem c x = true.
Proof.
  rewrite re_match_true. cbn [run rep]. destruct (cset_mem c x); [reflexivity|].
  cbn [andb stop_here]. congruence.
Qed.

Lemma cset_mem_digit (x : Z) : cset_mem digit x = Unicode.is_decimal x.
Proof. unfold cset_mem, digit. simpl. apply orb_false_r. Qed.

Lemma letter_M_upper (x : Z) :
  cset_mem (OneOf [Chr (ord "M")]) x = true -> cset_mem upper_az x = true.
Proof.
  unfold cset_mem. cbn [existsb atom_mem]. rewrite orb_false_r. intros H.
  apply Z.eqb_eq in H. subst x. reflexivity.
Qed.

Lemma roman_upper (x : Z) : cset_mem roman x = true -> cset_mem upper_az x = true.
Proof.
  unfold cset_mem, roman. cbn [existsb atom_mem ch]. rewrite orb_false_r. intros H.
  apply orb_true_iff in H. destruct H as [H|H]; [|apply orb_true_iff in H; destruct H as [H|H]];
    apply Z.eqb_eq in H; subst x; reflexivity.
Qed.

Lemma subject_head (clean_line : pystr) :
  is_subject clean_line = true ->
  exists c rest,
    clean_line = c :: rest
    /\ (cset_mem upper_az c = true \/ Unicode.is_decimal c = true).
Proof.
  destruct clean_line as [|c rest]; [discriminate|]. intros H.
  exists c, rest. split; [reflexivity|].
  unfold is_subject, SUBJECT_PATTERNS in H. cbn [existsb] in H.
  rewrite orb_false_r in H.
  repeat (apply orb_true_iff in H; destruct H as [H|H]).
  - left. apply match_head_word in H. apply letter_M_upper, H.
  - left. apply match_head_word in H. apply letter_M_upper, H.
  - left. apply match_head_set in H. exact H.
  - left. apply match_head_plus in H. apply roman_upper, H.
  - right. apply match_head_plus in H. rewrite cset_mem_digit in H. exact H.
Qed.

Lemma bullet_cases (g : Z) :
  cset_mem (OneOf bullets) g = true ->
  g = ord "-" \/ g = BULLET \/ g = BLACK_CIRCLE \/ g = REFERENCE_MARK \/ g = ord "*".
Proof.
  unfold cset_mem, bullets. cbn [existsb atom_mem ch]. rewrite orb_false_r. intros H.
  repeat (apply orb_true_iff in H; destruct H as [H|H]);
    apply Z.eqb_eq in H; auto.
Qed.

Lemma bullet_not_subject (g : Z) (rest : pystr) :
  cset_mem (OneOf bullets) g = true -> is_subject (g :: rest) = false.
Proof.
  intros B. destruct (is_subject (g :: rest)) eqn:S; [|reflexivity].
  apply subject_head in S. destruct S as [c [rest' [E S]]].
  inversion E; subst c rest'.
  apply bullet_cases in B.
  destruct B as [-> | [-> | [-> | [-> | ->]]]]; destruct S as [S|S];
    vm_compute in S; discriminate.
Qed.

(** X11: a subject always begins with an ASCII capital letter or a decimal
    digit: every subject pattern is anchored at the start and opens with
    ["Module"], a capital, a Roman numeral or a digit.  So a trimmed line
    that begins with a bullet glyph is never a subject. *)
Theorem subject_first_character (clean_line : pystr) :
  is_subject clean_line = true ->
  (exists c rest,
     clean_line = c :: rest
     /\ (cset_mem upper_az c = true \/ Unicode.is_decimal c = true))
  /\ starts_with_bullet clean_line = false.
Proof.
  intros H. split; [apply subject_head, H|].
  destruct clean_line as [|g rest]; [reflexivity|]. unfold starts_with_bullet.
  destruct (cset_mem (OneOf bullets) g) eqn:B; [|reflexivity].
  rewrite (bullet_not_subject g rest B) in H. discriminate.
Qed.

Lemma subject_first_character_witness :
  (exists c rest,
     lit "3. Graphs" = c :: rest
     /\ (cset_mem upper_az c = true \/ Unicode.is_decimal c = true))
  /\ starts_with_bullet (lit "3. Graphs") = false.
Proof. apply (subject_first_character (lit "3. Graphs")). reflexivity. Defined.

(** ** Bulleted lines *)

Lemma bullet_not_space (g : Z) :
  cset_mem (OneOf bullets) g = true -> Unicode.is_space g = false.
Proof.
  intros B. apply bullet_cases in B.
  destruct B as [-> | [-> | [-> | [-> | ->]]]]; reflexivity.
Qed.

(** A greedy run of white space that stops at a character which is not
    white space hands its continuation that character, and succeeds when the
    continuation does. *)
Lemma rep_space_prefix (ws : pystr) (x : Z) (tl b : pystr) (k : cont) (e : pos) :
  all_space ws -> Unicode.is_space x = false ->
  k (rev ws ++ b) (x :: tl) = Some e ->
  rep (cset_mem space) 0 None b (ws ++ x :: tl) k = Some e.
Proof.
  intros F Hx. revert b. induction F as [|w ws Hw F IH]; intros b K; cbn [app rep].
  - rewrite cset_mem_space, Hx. cbn [andb stop_here]. exact K.
  - rewrite cset_mem_space, Hw. cbn [andb may_repeat one_less Nat.pred].
    rewrite (IH (w :: b)); [reflexivity|].
    simpl in K. rewrite <- app_assoc in K. exact K.
Qed.

Lemma raw_line_shape (line : pystr) :
  exists lead trail, all_space lead /\ line = lead ++ strip line ++ trail.
Proof.
  destruct (lstrip_split line) as [lead [E F]].
  destruct (rstrip_split (lstrip line)) as [trail [E' _]].
  exists lead, trail. split; [exact F|]. unfold strip. rewrite <- E'. exact E.
Qed.

Lemma bulleted_is_subtopic (line : pystr) (g w : Z) (rest : pystr) :
  strip line = g :: w :: rest ->
  cset_mem (OneOf bullets) g = true -> Unicode.is_space w = true ->
  is_subtopic line = true.
Proof.
  intros E B W. destruct (raw_line_shape line) as [lead [trail [F L]]].
  unfold is_subtopic, SUBTOPIC_PATTERNS. cbn [existsb].
  apply orb_true_iff. left. apply re_match_true.
  cbn [cat fold_right run star]. rewrite L, E. cbn [app].
  rewrite (rep_space_prefix lead g (w :: rest ++ trail) [] _ (w :: g :: rev lead ++ [], rest ++ trail));
    [discriminate | exact F | apply bullet_not_space, B |].
  cbn [run]. rewrite B. rewrite cset_mem_space, W. reflexivity.
Qed.

Lemma text_after_marker (g w : Z) (rest : pystr) :
  Unicode.is_space w = true -> no_trailing_space (g :: w :: rest) ->
  lstrip rest <> [] /\ strip (lstrip rest) = lstrip rest.
Proof.
  intros W T. destruct (lstrip_split rest) as [ws [E F]].
  assert (N : lstrip rest <> []).
  { intros U. rewrite U, app_nil_r in E. subst ws.
    unfold no_trailing_space in T. simpl in T.
    destruct (rev rest) as [|y ys] eqn:R.
    - simpl in T. congruence.
    - simpl in T. unfold all_space in F. rewrite Forall_forall in F.
      assert (Hy : In y rest) by (apply in_rev; rewrite R; left; reflexivity).
      apply F in Hy. congruence. }
  split; [exact N|]. apply strip_id; [apply lstrip_no_leading|].
  unfold no_trailing_space in *.
  apply (no_leading_prefix _ (rev (g :: w :: ws))).
  - rewrite <- rev_app_distr. replace ((g :: w :: ws) ++ lstrip rest) with (g :: w :: rest);
      [exact T | simpl; rewrite <- E; reflexivity].
  - intros R. apply N. rewrite <- (rev_involutive (lstrip rest)), R. reflexivity.
Qed.

(** X12: under a current subject, a line whose trimmed text is a bullet
    glyph (one of [- • ● ※ *]), then white space, then text, is always stored:
    it is never taken for a subject, and the text after the glyph and the
    white space is appended to the list of the current subject. *)
Theorem bulleted_line_stored (st : cursor) (line subject : pystr) (g w : Z) (rest : pystr) :
  fst st = Some subject ->
  strip line = g :: w :: rest ->
  cset_mem (OneOf bullets) g = true -> Unicode.is_space w = true ->
  lstrip rest <> []
  /\ primary_step st line
     = (Some subject, Dict.update subject (fun l => l ++ [lstrip rest]) (snd st)).
Proof.
  intros C E B W. destruct st as [current_subject topics]. simpl in C. subst current_subject.
  pose proof (strip_no_trailing line) as T. rewrite E in T.
  destruct (text_after_marker g w rest W T) as [N S].
  split; [exact N|]. unfold primary_step.
  rewrite (bulleted_is_subtopic line g w rest E B W). rewrite E.
  rewrite (bullet_not_subject g (w :: rest) B). cbn [truthy negb orb].
  rewrite re_sub_strip by (apply bullet_not_space, B).
  rewrite (bullet_is_marker g B). cbn [lstrip]. rewrite W, S.
  destruct (lstrip rest) as [|y ys]; [congruence|]. reflexivity.
Qed.

Lemma bulleted_line_stored_witness :
  lstrip (lit "  two words") <> []
  /\ primary_step (Some (lit "Topics:"), [(lit "Topics:", [lit "one"])])
                  ([9; BULLET; 32] ++ lit "  two words ")
     = (Some (lit "Topics:"),
        Dict.update (lit "Topics:") (fun l => l ++ [lstrip (lit "  two words")])
                    [(lit "Topics:", [lit "one"])]).
Proof.
  apply (bulleted_line_stored (Some (lit "Topics:"), [(lit "Topics:", [lit "one"])])
           ([9; BULLET; 32] ++ lit "  two words ") (lit "Topics:")
           BULLET 32 (lit "  two words")); reflexivity.
Defined.

(** ** Stored entries stay *)

Lemma primary_step_appends (st : cursor) (line subject : pystr) :
  strip line <> subject ->
  exists added,
    Dict.get subject (snd (primary_step st line))
    = option_map (fun l => l ++ added) (Dict.get subject (snd st))
    /\ (List.length added <= 1)%nat
    /\ (fst st <> Some subject -> added = []).
Proof.
  intros N. destruct st as [current_subject topics]. unfold primary_step. cbn [fst snd].
  assert (Same : exists added,
             Dict.get subject topics
             = option_map (fun l => l ++ added) (Dict.get subject topics)
             /\ (List.length added <= 1)%nat
             /\ (current_subject <> Some subject -> added = [])).
  { exists []. split; [|split; [simpl; lia | reflexivity]].
    destruct (Dict.get subject topics); simpl; [rewrite app_nil_r|]; reflexivity. }
  destruct (truthy (strip line)); cbn [negb]; [|exact Same].
  destruct (is_subject (strip line)).
  - cbn [snd]. rewrite get_set_other by congruence. exact Same.
  - destruct current_subject as [subject0|]; [|exact Same].
    destruct (is_subtopic line || Str.contains two_spaces line); [|exact Same].
    destruct (_ && _); [|exact Same]. cbn [snd].
    destruct (Str.eqb subject0 subject) eqn:E.
    + apply eqb_eq in E. subst subject0. rewrite get_update_same.
      eexists. split; [reflexivity|]. split; [simpl; lia | congruence].
    + apply eqb_neq in E. rewrite get_update_other by congruence. exact Same.
Qed.

Lemma fold_subject (lines : list pystr) (st : cursor) :
  fst (fold_left primary_step lines st) = fst st
  \/ exists line, In line lines /\ fst (fold_left primary_step lines st) = Some (strip line).
Proof.
  revert st. induction lines as [|line lines IH]; intros st; [left; reflexivity|].
  cbn [fold_left]. destruct (IH (primary_step st line)) as [H|[l [Hin H]]].
  - rewrite H. clear H IH. destruct st as [current_subject topics]. unfold primary_step.
    destruct (truthy (strip line)); cbn [negb]; [|auto].
    destruct (is_subject (strip line));
      [right; exists line; split; [left; reflexivity | reflexivity]|].
    destruct current_subject; [|auto].
    destruct (_ || _); [|auto]. destruct (_ && _); auto.
  - right. exists l. split; [right; exact Hin | exact H].
Qed.

(** X13: what is stored under a subject stays, in its order, for as long
    as the subject line does not come again: over any run of lines none of
    which is that subject, its list only has entries added at its end, and
    none at all unless it is the current subject at the start of the run. *)
Theorem stored_entries_stay (lines : list pystr) (st : cursor) (subject : pystr) :
  (forall line, In line lines -> strip line <> subject) ->
  exists added,
    Dict.get subject (snd (fold_left primary_step lines st))
    = option_map (fun l => l ++ added) (Dict.get subject (snd st))
    /\ (fst st <> Some subject -> added = []).
Proof.
  revert st. induction lines as [|line lines IH]; intros st H.
  - exists []. split; [|reflexivity]. simpl.
    destruct (Dict.get subject (snd st)); simpl; [rewrite app_nil_r|]; reflexivity.
  - cbn [fold_left].
    destruct (primary_step_appends st line subject) as [a1 [E1 [_ F1]]];
      [apply H; left; reflexivity|].
    destruct (IH (primary_step st line)) as [a2 [E2 F2]];
      [intros l Hl; apply H; right; exact Hl|].
    exists (a1 ++ a2). split.
    + rewrite E2, E1. destruct (Dict.get subject (snd st)); simpl;
        [rewrite app_assoc|]; reflexivity.
    + intros C. rewrite (F1 C). simpl. apply F2.
      intros C'. apply C. clear - C' H.
      destruct (fold_subject [line] st) as [E|[l [[<-|[]] E]]]; simpl in E.
      * congruence.
      * rewrite E in C'. inversion C' as [C'']. exfalso.
        apply (H line); [left; reflexivity | exact C''].
Qed.

Lemma stored_entries_stay_witness :
  exists added,
    Dict.get (lit "One:") (snd (fold_left primary_step [lit "- b"; lit "Two:"; lit "- c"]
                                          (Some (lit "One:"), [(lit "One:", [lit "a"])])))
    = option_map (fun l => l ++ added)
                 (Dict.get (lit "One:") (snd (Some (lit "One:"), [(lit "One:", [lit "a"])])))
    /\ (fst (Some (lit "One:"), [(lit "One:", [lit "a"])]) <> Some (lit "One:") -> added = []).
Proof.
  apply (stored_entries_stay [lit "- b"; lit "Two:"; lit "- c"]
           (Some (lit "One:"), [(lit "One:", [lit "a"])]) (lit "One:")).
  intros line Hin. destruct Hin as [<- | [<- | [<- | []]]]; vm_compute; discriminate.
Defined.

(** ** The flags after a refresh *)

Lemma get_create_subject_frame (subject : pystr) (items : list pystr)
      (vars : Registry) (k : pystr) :
  Dict.get k (_create_subject_frame subject items vars)
  = if existsb (Str.eqb k) items then Some false else Dict.get k vars.
Proof.
  unfold _create_subject_frame. revert vars.
  induction items as [|i items IH]; intros vars; [reflexivity|]. cbn [fold_left existsb].
  rewrite IH. destruct (existsb (Str.eqb k) items); [rewrite orb_true_r; reflexivity|].
  rewrite orb_false_r. destruct (Str.eqb k i) eqn:E.
  - apply eqb_eq in E. subst i. apply get_set_same.
  - apply eqb_neq in E. apply get_set_other, E.
Qed.

Lemma get_all_frames (tm : TopicMap) (vars : Registry) (k : pystr) :
  Dict.get k (fold_left (fun vars kv => _create_subject_frame (fst kv) (snd kv) vars) tm vars)
  = if existsb (Str.eqb k) (flatten tm) then Some false else Dict.get k vars.
Proof.
  revert vars. induction tm as [|[subject items] tm IH]; intros vars; [reflexivity|].
  cbn [fold_left fst snd]. rewrite IH, get_create_subject_frame.
  unfold flatten. cbn [List.map List.concat snd]. rewrite existsb_app.
  destruct (existsb (Str.eqb k) (List.concat (List.map snd tm)));
    [rewrite orb_true_r; reflexivity|].
  rewrite orb_false_r. reflexivity.
Qed.

Lemma apply_items_get (record : list (pystr * bool)) (vars : Registry) (k : pystr) :
  Dict.get k (snd (apply_items (as_loaded record) vars))
  = match latest record k with
    | Some flag => if Dict.mem k vars then Some flag else None
    | None => Dict.get k vars
    end.
Proof.
  revert vars. induction record as [|[topic flag] rest IH]; intros vars; [reflexivity|].
  cbn [as_loaded List.map apply_items fst snd latest].
  fold (as_loaded rest).
  destruct (Dict.mem topic vars) eqn:M.
  - rewrite IH, mem_update. destruct (latest rest k); [reflexivity|].
    destruct (Str.eqb topic k) eqn:E.
    + apply eqb_eq in E. subst topic. rewrite M, get_update_same.
      unfold Dict.mem in M. destruct (Dict.get k vars); [reflexivity | discriminate].
    + apply eqb_neq in E. apply get_update_other. congruence.
  - rewrite IH. destruct (latest rest k); [reflexivity|].
    destruct (Str.eqb topic k) eqn:E; [|reflexivity].
    apply eqb_eq in E. subst topic. rewrite M.
    unfold Dict.mem in M. destruct (Dict.get k vars); [discriminate | reflexivity].
Qed.

(** X14: the flags after a refresh.  With a record of flags in
    [progress.json], a key the record mentions gets the record's last flag for
    it, provided the key is registered or on display, and is not created
    otherwise; a key the record does not mention is unset when it is on
    display, whatever it held before, and keeps its flag when it is not.
    Without the file the same holds with no key mentioned. *)
Theorem flags_after_refresh (record : list (pystr * bool)) (t : StudyTracker) (k : pystr) :
  Dict.get k (checkbox_vars (snd (refresh_ui (Loaded (as_loaded record)) t)))
  = match latest record k with
    | Some flag =>
        if existsb (Str.eqb k) (flatten (topics t)) || Dict.mem k (checkbox_vars t)
        then Some flag else None
    | None =>
        if existsb (Str.eqb k) (flatten (topics t)) then Some false
        else Dict.get k (checkbox_vars t)
    end
  /\ Dict.get k (checkbox_vars (snd (refresh_ui NoFile t)))
     = if existsb (Str.eqb k) (flatten (topics t)) then Some false
       else Dict.get k (checkbox_vars t).
Proof.
  unfold refresh_ui, load_progress.
  set (vars := fold_left _ (topics t) (checkbox_vars t)).
  assert (G : Dict.get k vars
              = if existsb (Str.eqb k) (flatten (topics t)) then Some false
                else Dict.get k (checkbox_vars t)) by apply get_all_frames.
  split; [|exact G].
  pose proof (apply_items_get record vars k) as A.
  destruct (apply_items (as_loaded record) vars) as [ok vars']. cbn [snd checkbox_vars] in *.
  rewrite A. destruct (latest record k); [|exact G].
  unfold Dict.mem. rewrite G.
  destruct (existsb (Str.eqb k) (flatten (topics t))); [reflexivity|].
  destruct (Dict.get k (checkbox_vars t)); reflexivity.
Qed.

(** ** Errors of [load_progress] *)

Lemma apply_items_fails (progress : list (pystr * option bool)) (vars : Registry) :
  fst (apply_items progress vars) = false
  <-> exists topic, In (topic, None) progress /\ Dict.mem topic vars = true.
Proof.
  revert vars. induction progress as [|[topic is_completed] rest IH]; intros vars;
    cbn [apply_items].
  - split; [discriminate | intros [? [[] _]]].
  - destruct (Dict.mem topic vars) eqn:M.
    + destruct is_completed as [flag|].
      * rewrite IH. split; intros [x [Hin Hm]]; exists x; rewrite mem_update in *.
        -- split; [right; exact Hin | exact Hm].
        -- destruct Hin as [E|Hin]; [discriminate | auto].
      * split; [|reflexivity]. intros _. exists topic. split; [left; reflexivity | exact M].
    + rewrite IH. split; intros [x [Hin Hm]]; exists x.
      * split; [right; exact Hin | exact Hm].
      * destruct Hin as [E|Hin]; [|auto]. inversion E; subst. congruence.
Qed.

(** X15: [load_progress] reports an error in two cases only: the file is
    there and cannot be read as a record, or the record gives a registered key
    a value that the check-box variable rejects.  A missing file is no error,
    and neither is anything the record says about keys that are not
    registered. *)
Theorem load_progress_errors (file : stored) (vars : Registry) :
  In ErrorLoadProgress (fst (load_progress file vars))
  <-> file = Unreadable
      \/ exists progress topic,
           file = Loaded progress /\ In (topic, None) progress
           /\ Dict.mem topic vars = true.
Proof.
  destruct file as [| |progress]; cbn [load_progress fst].
  - split; [intros [] | intros [H|[p [x [H _]]]]; discriminate].
  - split; [auto | intros _; left; reflexivity].
  - pose proof (apply_items_fails progress vars) as F.
    destruct (apply_items progress vars) as [[|] vars']; cbn [fst] in *.
    + split; [intros [H|[]]; discriminate|].
      intros [H|[p [x [E [Hin Hm]]]]]; [discriminate|]. inversion E; subst p.
      assert (T : true = false) by (apply F; exists x; auto). discriminate.
    + split; [|intros _; left; reflexivity]. intros _. right.
      destruct (proj1 F eq_refl) as [x [Hin Hm]]. exists progress, x. auto.
Qed.

(** ** The progress report *)

Lemma filter_partition_length {A} (f : A -> bool) (l : list A) :
  (List.length (List.filter f l) + List.length (List.filter (fun x => negb (f x)) l)
   = List.length l)%nat.
Proof.
  induction l as [|x l IH]; [reflexivity|]. simpl. destruct (f x); simpl; lia.
Qed.

Lemma in_keys_filter_flag (vars : Registry) (flag : bool) (k : pystr) :
  In k (Dict.keys (List.filter (fun kv => Bool.eqb (snd kv) flag) vars))
  <-> In (k, flag) vars.
Proof.
  unfold Dict.keys. rewrite in_map_iff. split.
  - intros [[k' b] [E H]]. apply filter_In in H. destruct H as [H B]. simpl in *.
    apply Bool.eqb_prop in B. subst. exact H.
  - intros H. exists (k, flag). split; [reflexivity|]. apply filter_In.
    split; [exact H | apply Bool.eqb_reflx].
Qed.

(** X16: the report of [check_progress].  With nothing registered, as
    before the first document is loaded, it says that no topics are available,
    and the save that follows, when it meets no failure, replaces whatever
    [progress.json] held by the empty record.  Otherwise it lists every
    registered key
    once: the keys whose flag is set as completed, the others as incomplete,
    and the two counts add up to the size of the registry. *)
Theorem progress_report (fault : option nat) (file : disk) (t : StudyTracker) :
  (checkbox_vars t = []
   /\ hd_error (fst (check_progress fault file t)) = Some InfoNoTopicsAvailable
   /\ snd (check_progress None file t) = Some (lit "{}"))
  \/ (checkbox_vars t <> []
      /\ exists completed incomplete,
           hd_error (fst (check_progress fault file t))
           = Some (InfoProgressReport completed incomplete)
           /\ (forall k, In k completed <-> In (k, true) (checkbox_vars t))
           /\ (forall k, In k incomplete <-> In (k, false) (checkbox_vars t))
           /\ (List.length completed + List.length incomplete
               = List.length (checkbox_vars t))%nat).
Proof.
  destruct (checkbox_vars t) as [|kv vars] eqn:V.
  - left. split; [reflexivity|]. split.
    + unfold check_progress. rewrite V. destruct (save_progress fault file t). reflexivity.
    + unfold check_progress, save_progress, progress_of. rewrite V. reflexivity.
  - right. split; [discriminate|]. unfold check_progress. rewrite V.
    set (done := List.filter (fun kv => snd kv) (kv :: vars)).
    set (todo := List.filter (fun kv => negb (snd kv)) (kv :: vars)).
    assert (L : (List.length (Dict.keys done) + List.length (Dict.keys todo)
                 = List.length (kv :: vars))%nat).
    { unfold Dict.keys. rewrite !length_map. apply filter_partition_length. }
    destruct (save_progress fault file t) as [ev file'].
    exists (Dict.keys done), (Dict.keys todo).
    assert (P : (0 <? List.length (Dict.keys done) + List.length (Dict.keys todo))%nat = true)
      by (apply Nat.ltb_lt; rewrite L; simpl; lia).
    rewrite P. split; [reflexivity|].
    split; [|split; [|exact L]]; intros k.
    + rewrite <- (in_keys_filter_flag (kv :: vars) true k). subst done.
      rewrite (filter_ext (fun kv0 => snd kv0) (fun kv0 => Bool.eqb (snd kv0) true));
        [reflexivity | intros [? []]; reflexivity].
    + rewrite <- (in_keys_filter_flag (kv :: vars) false k). subst todo.
      rewrite (filter_ext (fun kv0 => negb (snd kv0)) (fun kv0 => Bool.eqb (snd kv0) false));
        [reflexivity | intros [? []]; reflexivity].
Qed.

(** ** What a save writes *)

Lemma land_15_bounds (n : Z) : 0 <= Z.land n 15 <= 15.
Proof.
  change 15 with (Z.ones 4) at 1 2. rewrite Z.land_ones by lia.
  pose proof (Z.mod_pos_bound n (2 ^ 4) ltac:(lia)). change (2 ^ 4) with 16 in *. lia.
Qed.

Lemma hex_digit_printable (n : Z) : is_printable_ascii (hex_digit (Z.land n 15)) = true.
Proof.
  pose proof (land_15_bounds n) as B. unfold hex_digit, is_printable_ascii.
  destruct (Z.land n 15 <? 10) eqn:E;
    [apply Z.ltb_lt in E | apply Z.ltb_ge in E];
    apply andb_true_iff; split; apply Z.leb_le; lia.
Qed.

Lemma u_escape_printable (n : Z) : forallb is_printable_ascii (u_escape n) = true.
Proof.
  unfold u_escape. cbn [forallb]. rewrite !hex_digit_printable. reflexivity.
Qed.

Lemma escape_char_printable (c : Z) : forallb is_printable_ascii (escape_char c) = true.
Proof.
  unfold escape_char.
  repeat match goal with
         | |- context [if ?b then _ else _] => destruct b eqn:?
         end;
    try reflexivity;
    try (rewrite forallb_app, !u_escape_printable; reflexivity);
    try apply u_escape_printable.
  cbn [forallb]. unfold is_printable_ascii.
  match goal with H : (32 <=? c) && (c <=? 126) = true |- _ => rewrite H end. reflexivity.
Qed.

Lemma encoded_key_printable (s : pystr) :
  forallb is_printable_ascii (encode_basestring_ascii s) = true.
Proof.
  unfold encode_basestring_ascii. cbn [forallb]. rewrite forallb_app.
  replace (forallb is_printable_ascii (flat_map escape_char s)) with true; [reflexivity|].
  induction s as [|c s IH]; [reflexivity|]. cbn [flat_map].
  rewrite forallb_app, escape_char_printable, <- IH. reflexivity.
Qed.

Lemma item_chunks_printable (first : bool) (progress : list (pystr * bool)) :
  forallb is_printable_ascii (List.concat (item_chunks first progress)) = true.
Proof.
  revert first. induction progress as [|[key value] rest IH]; intros first; [reflexivity|].
  cbn [item_chunks]. rewrite !concat_app, !forallb_app. cbn [List.concat].
  rewrite !forallb_app, encoded_key_printable, IH.
  destruct first, value; reflexivity.
Qed.

Lemma json_text_printable (progress : list (pystr * bool)) :
  forallb is_printable_ascii (json_text progress) = true.
Proof.
  unfold json_text, json_chunks. destruct progress as [|kv rest]; [reflexivity|].
  rewrite !concat_app, !forallb_app, item_chunks_printable. reflexivity.
Qed.

Lemma json_text_braces (progress : list (pystr * bool)) :
  hd_error (json_text progress) = Some (ord "{")
  /\ last (json_text progress) 0 = ord "}".
Proof.
  unfold json_text, json_chunks. destruct progress as [|kv rest]; [split; reflexivity|].
  split; [reflexivity|].
  rewrite app_assoc, concat_app. cbn [List.concat]. rewrite app_nil_r.
  change (lit "}") with [ord "}"]. apply last_last.
Qed.

(** X17: the text a save writes is plain ASCII whatever the subtopics
    hold: every character is between the space and the tilde, anything else
    being written as an escape; the text opens with a brace and closes with
    one. *)
Theorem saved_text_is_ascii (file : disk) (t : StudyTracker) :
  exists text,
    snd (save_progress None file t) = Some text
    /\ forallb is_printable_ascii text = true
    /\ hd_error text = Some (ord "{")
    /\ last text 0 = ord "}".
Proof.
  exists (json_text (progress_of t)). rewrite save_without_fault.
  split; [reflexivity|]. split; [apply json_text_printable | apply json_text_braces].
Qed.

(** ** The tracker between events *)

Lemma create_subject_frame_nodup (subject : pystr) (items : list pystr) (vars : Registry) :
  NoDup (Dict.keys vars) -> NoDup (Dict.keys (_create_subject_frame subject items vars)).
Proof.
  unfold _create_subject_frame. revert vars.
  induction items as [|i items IH]; intros vars N; [exact N|]. cbn [fold_left].
  apply IH. rewrite keys_set_add. apply add_key_nodup, N.
Qed.

Lemma refresh_ui_topics (file : stored) (t : StudyTracker) :
  topics (snd (refresh_ui file t)) = topics t.
Proof. unfold refresh_ui. destruct (load_progress _ _). reflexivity. Qed.

Lemma all_frames_nodup (tm : TopicMap) (vars : Registry) :
  NoDup (Dict.keys vars) ->
  NoDup (Dict.keys (fold_left (fun vars kv => _create_subject_frame (fst kv) (snd kv) vars)
                              tm vars)).
Proof.
  revert vars. induction tm as [|[subject items] tm IH]; intros vars N; [exact N|].
  cbn [fold_left fst snd]. apply IH, create_subject_frame_nodup, N.
Qed.

Lemma refresh_ui_nodup (file : stored) (t : StudyTracker) :
  NoDup (Dict.keys (checkbox_vars t)) ->
  NoDup (Dict.keys (checkbox_vars (snd (refresh_ui file t)))).
Proof.
  intros N. unfold refresh_ui.
  set (vars := fold_left _ (topics t) (checkbox_vars t)).
  pose proof (keys_load_progress file vars) as K.
  destruct (load_progress file vars) as [ev vars']. cbn [snd checkbox_vars] in *. rewrite K.
  apply all_frames_nodup, N.
Qed.

Lemma alternative_step_nodup (st : cursor) (line : pystr) :
  NoDup (Dict.keys (snd st)) -> NoDup (Dict.keys (snd (alternative_step st line))).
Proof.
  destruct st as [current_subject topics]. unfold alternative_step. intros N.
  destruct (truthy (strip line)); cbn [negb]; [|exact N].
  destruct (is_loose_subject (strip line));
    [cbn [snd]; rewrite keys_set_add; apply add_key_nodup, N|].
  destruct (truthy_subject current_subject && true); [|exact N].
  destruct current_subject; [|exact N]. cbn [snd]. rewrite keys_update. exact N.
Qed.

Lemma clean_and_validate_nodup (topics : TopicMap) (lines : list pystr) :
  NoDup (Dict.keys topics) ->
  NoDup (Dict.keys (snd (_clean_and_validate_topics topics lines))).
Proof.
  intros N. unfold _clean_and_validate_topics.
  assert (N1 : NoDup (Dict.keys (remove_empty topics))) by apply nodup_keys_filter, N.
  destruct (is_empty_dict (remove_empty topics)) eqn:E1.
  - assert (N2 : NoDup (Dict.keys (alternative_loop (remove_empty topics) lines))).
    { unfold alternative_loop.
      apply (fold_left_invariant (fun st => NoDup (Dict.keys (snd st)))); [exact N1|].
      intros st line _ H. apply alternative_step_nodup, H. }
    destruct (is_empty_dict (alternative_loop (remove_empty topics) lines)); cbn [snd];
      [rewrite keys_set_add; apply add_key_nodup, N2 | exact N2].
  - rewrite E1. exact N1.
Qed.

Lemma extraction_nodup (document : pdf) :
  NoDup (Dict.keys (snd (extract_topics_from_pdf document))).
Proof.
  destruct document as [| |pages]; cbn [extract_topics_from_pdf snd].
  - repeat constructor. simpl. tauto.
  - repeat constructor. simpl. tauto.
  - unfold extract_from_lines. apply clean_and_validate_nodup.
    unfold primary_loop. rewrite primary_fold_keys. apply fold_add_key_nodup. constructor.
Qed.

Lemma load_pdf_invariant (choice : option pdf) (file : stored) (t : StudyTracker) :
  tracker_invariant t -> tracker_invariant (snd (load_pdf choice file t)).
Proof.
  intros [C [N1 N2]]. unfold load_pdf. destruct choice as [document|]; [|repeat split; assumption].
  pose proof (extraction_nodup document) as NX.
  destruct (extract_topics_from_pdf document) as [ev extracted]. cbn [snd] in NX.
  set (t' := {| topics := extracted; checkbox_vars := checkbox_vars t |}).
  destruct (negb (is_empty_dict extracted)) eqn:E.
  - pose proof (refresh_ui_topics file t') as T.
    pose proof (refresh_ui_nodup file t' N1) as V.
    pose proof (keys_refresh_ui file t') as K.
    destruct (refresh_ui file t') as [ev' t'']. cbn [snd] in *.
    split; [|split; [exact V | rewrite T; exact NX]].
    intros k Hk. apply K. right. rewrite <- T. exact Hk.
  - cbn [snd]. destruct extracted as [|kv extracted']; [|simpl in E; discriminate].
    split; [intros k []|]. split; [exact N1 | constructor].
Qed.

(** X18: in every state the tracker reaches from its initial one by
    loading documents, whatever they are and whatever [progress.json] holds
    each time, every subtopic on display has a check-box variable, no key is
    registered twice, and no subject is listed twice. *)
Theorem reachable_states_consistent (loads : list (option pdf * stored)) :
  covered (session loads initial)
  /\ NoDup (Dict.keys (checkbox_vars (session loads initial)))
  /\ NoDup (Dict.keys (topics (session loads initial))).
Proof.
  change (tracker_invariant (session loads initial)). unfold session.
  apply fold_left_invariant.
  - split; [intros k []|]. split; constructor.
  - intros t load _ H. apply load_pdf_invariant, H.
Qed.

(** X19: a document that does not open, or that the reader rejects, is
    shown like any other: the one-entry error map becomes the current map,
    and its message is registered as an item, to be ticked, reported and saved
    with the rest. *)
Theorem error_text_becomes_item (file : stored) (t : StudyTracker) :
  topics (snd (load_pdf (Some CannotOpen) file t)) = [(ERROR, [lit "Failed to open file"])]
  /\ In (lit "Failed to open file")
        (Dict.keys (progress_of (snd (load_pdf (Some CannotOpen) file t))))
  /\ topics (snd (load_pdf (Some CannotRead) file t)) = [(ERROR, [lit "Failed to read PDF"])]
  /\ In (lit "Failed to read PDF")
        (Dict.keys (progress_of (snd (load_pdf (Some CannotRead) file t)))).
Proof.
  unfold load_pdf, progress_of. cbn [extract_topics_from_pdf is_empty_dict negb].
  set (t1 := {| topics := [(ERROR, [lit "Failed to open file"])];
                checkbox_vars := checkbox_vars t |}).
  set (t2 := {| topics := [(ERROR, [lit "Failed to read PDF"])];
                checkbox_vars := checkbox_vars t |}).
  pose proof (refresh_ui_topics file t1) as T1. pose proof (refresh_ui_topics file t2) as T2.
  pose proof (keys_refresh_ui file t1 (lit "Failed to open file")) as K1.
  pose proof (keys_refresh_ui file t2 (lit "Failed to read PDF")) as K2.
  destruct (refresh_ui file t1) as [ev1 r1]. destruct (refresh_ui file t2) as [ev2 r2].
  cbn [snd] in *.
  split; [exact T1|]. split; [apply K1; right; left; reflexivity|].
  split; [exact T2|]. apply K2. right. left. reflexivity.
Qed.

(** ** The result, tier by tier *)


Lemma alternative_step_without_subject (line : pystr) :
  is_loose_subject (strip line) = false -> alternative_step (None, []) line = (None, []).
Proof.
  intros H. unfold alternative_step. rewrite H.
  destruct (truthy (strip line)); reflexivity.
Qed.

(** X21: a document without headings.  When no line matches a subject
    pattern and none passes the loose test of the second pass, both passes
    come out empty and the result is the ["Detected Content"] entry with the
    first ten trimmed non-blank lines, together with the warning. *)
Theorem no_heading_detected_content (lines : list pystr) :
  (forall line, In line lines ->
     is_subject (strip line) = false /\ is_loose_subject (strip line) = false) ->
  extract_from_lines lines
  = ([DebugAlternativeParsing; WarningNoTopics],
     [(DETECTED_CONTENT, firstn 10 (List.filter truthy (List.map strip lines)))]).
Proof.
  intros H. unfold extract_from_lines, primary_loop, _clean_and_validate_topics.
  rewrite fold_left_fixed
    by (intros x Hx; apply primary_step_without_subject, (H x Hx)).
  cbn [snd remove_empty List.filter is_empty_dict]. unfold alternative_loop.
  rewrite fold_left_fixed
    by (intros x Hx; apply alternative_step_without_subject, (H x Hx)).
  reflexivity.
Qed.

Lemma no_heading_detected_content_witness :
  extract_from_lines [lit "first point"; lit "  "; lit "- second point"]
  = ([DebugAlternativeParsing; WarningNoTopics],
     [(DETECTED_CONTENT,
       firstn 10 (List.filter truthy
                    (List.map strip [lit "first point"; lit "  "; lit "- second point"])))]).
Proof.
  apply (no_heading_detected_content [lit "first point"; lit "  "; lit "- second point"]).
  intros line Hin. destruct Hin as [<- | [<- | [<- | []]]]; split; vm_compute; reflexivity.
Defined.

(** ** The stripping step, in full *)

(** X22: what the stripping step removes.  Every subtopic of the
    primary-pass map comes from a line whose trimmed text either does not
    begin with a character of the set [- • ● ※ * digit .] and is stored as it
    is, or begins with one, in which case that single character and the white
    space after it are removed and nothing more: of a number of several
    digits only the first digit goes. *)
Theorem stripping_removes_one_character (lines : list pystr) (subject : pystr)
        (items : list pystr) (s : pystr) :
  In (subject, items) (tier1 lines) -> In s items ->
  exists line,
    In line lines
    /\ ((strip line = s /\ starts_with_marker (strip line) = false)
        \/ exists c ws,
             cset_mem MARKER c = true /\ all_space ws /\ strip line = c :: ws ++ s).
Proof.
  intros H1 H2. unfold tier1, remove_empty in H1. apply filter_In in H1.
  destruct H1 as [H1 _].
  destruct (primary_loop_well_stored lines subject items s H1 H2) as [_ [_ [_ H]]].
  exact H.
Qed.

Lemma stripping_removes_one_character_witness :
  exists line,
    In line marker_lines
    /\ ((strip line = lit "2.3 foo" /\ starts_with_marker (strip line) = false)
        \/ exists c ws,
             cset_mem MARKER c = true /\ all_space ws
             /\ strip line = c :: ws ++ lit "2.3 foo").
Proof.
  apply (stripping_removes_one_character marker_lines (lit "Topics:")
           [lit "2.3 foo"; lit "- x"; lit "a) y"] (lit "2.3 foo")).
  - vm_compute. left. reflexivity.
  - left. reflexivity.
Defined.
